(** * Onyx meta-search front-end: cache, usage counter, search client,
      place lookup and result composer of [script.py]

    The Python module is embedded shallowly.  JSON payloads are the
    dynamically typed values that [r.json()] yields; the module-level
    dictionaries [_cache] and [_request_counter] become an explicit
    [state] threaded through every call; the clock and the three remote
    services are inputs gathered in a [world]; a Python exception is the
    [Raise] alternative of [result]. *)

From Stdlib Require Import ZArith QArith String Ascii List Lia.
From Stdlib Require Import DecimalString.
From stdpp Require Import gmap strings.

Local Open Scope Z_scope.
Set Warnings "-register-all".

(** ** Python values *)

(** A Python float: a finite number, modelled as an exact rational (no
    rounding), an infinity, or NaN.  [json.loads] yields the last two
    for the literals [Infinity], [-Infinity] and [NaN], and [float] for
    strings such as "inf" and "nan". *)
Inductive pyfloat : Type :=
| Finite (q : Q)
| Infinite (negative : bool)
| NaN.

Coercion Finite : Q >-> pyfloat.

(** [f < bound] for a float and a finite bound: false for NaN. *)
Definition float_lt (f : pyfloat) (bound : Q) : bool :=
  match f with
  | Finite q => negb (Qle_bool bound q)
  | Infinite negative => negative
  | NaN => false
  end.

(** What [json.loads] can return; a dict is the list of its items. *)
Inductive value : Type :=
| VNone
| VBool (b : bool)
| VInt (z : Z)
| VFloat (f : pyfloat)
| VStr (s : string)
| VList (l : list value)
| VDict (d : list (string * value)).

(** Python truth value testing, as used by [if x:], [not x] and [or]. *)
Definition truthy (v : value) : bool :=
  match v with
  | VNone => false
  | VBool b => b
  | VInt z => negb (z =? 0)
  | VFloat (Finite q) => negb (Qeq_bool q 0)
  | VFloat _ => true
  | VStr s => negb (String.eqb s EmptyString)
  | VList l => match l with [] => false | _ :: _ => true end
  | VDict d => match d with [] => false | _ :: _ => true end
  end.

(** [a or b] *)
Definition py_or (a b : value) : value := if truthy a then a else b.

(** [str(n)] for an integer, as in the f-string of the cache key. *)
Definition str_int (z : Z) : string := NilZero.string_of_int (Z.to_int z).

(** ** Responses and exceptions *)

(** A [requests.Response]: [json_body] is [None] when the body is not
    valid JSON, in which case [r.json()] raises. *)
Record Response : Type := mkResponse {
  status_code : Z;
  text : string;
  json_body : option value
}.

(** The exceptions that can travel through the module.  Only the class
    matters to the handlers ([HTTPError] against any other
    [Exception]); [RequestException] stands for the transport failures
    of [requests] (connection, timeout) and [JSONDecodeError] for an
    undecodable body. *)
Inductive exn : Type :=
| RuntimeError (msg : string)
| HTTPError (response : Response)
| RequestException
| JSONDecodeError
| TypeError
| AttributeError
| KeyError
| IndexError
| ValueError
| OverflowError.

Inductive result (A : Type) : Type :=
| Ok (a : A)
| Raise (e : exn).
Arguments Ok {A} a.
Arguments Raise {A} e.

(** Outcome of one [requests.get]. *)
Inductive reply : Type :=
| Unreachable
| Replied (r : Response).

(** [r.raise_for_status()] raises for 4xx and 5xx. *)
Definition raises_for_status (r : Response) : bool :=
  (400 <=? status_code r) && (status_code r <? 600).

(** ** Configuration, world and process state *)

(** [os.getenv] gives [None] for an unset variable. *)
Record config : Type := mkConfig {
  API_KEY : option string;
  CX : option string;
  MAIL : option string
}.

(** [not X] for an optional string. *)
Definition unset (o : option string) : bool :=
  match o with
  | None => true
  | Some s => String.eqb s EmptyString
  end.

(** Parameters of the upstream search call ([params] and [timeout]). *)
Record request : Type := mkRequest {
  rq_key : option string;
  rq_cx : option string;
  rq_q : string;
  rq_num : Z;
  rq_start : Z;
  rq_searchType : option string;
  rq_timeout : Z
}.

(** Everything a request handler reads from outside the process:
    [time.time()] when the cache is read and when it is written,
    [time.strftime("%Y-%m-%d")], and the answers of the three
    providers. *)
Record world : Type := mkWorld {
  clock_read : Q;
  clock_store : Q;
  today : string;
  search_api : request -> reply;
  wiki_api : string -> reply;
  osm_api : string -> string -> reply
}.

Abbreviation CacheKey := (string * Z * string)%type.
Abbreviation Cache := (gmap CacheKey (Q * value)).

(** The two module-level dictionaries, and the list of upstream search
    requests issued so far (most recent first).  The last field is not
    a variable of the program: it records the calls of line 77. *)
Record state : Type := mkState {
  _cache : Cache;
  counter_date : string;
  counter_count : Z;
  net_log : list request
}.

Definition CACHE_TTL_SEC : Q := 60.

(** ** Response cache *)

Definition _cache_get (now : Q) (key : CacheKey) (c : Cache) : value * Cache :=
  match c !! key with
  | None => (VNone, c)
  | Some (ts, payload) =>
      (* time.time() - ts > CACHE_TTL_SEC *)
      if negb (Qle_bool (now - ts) CACHE_TTL_SEC)
      then (VNone, delete key c)
      else (payload, c)
  end.

Definition _cache_set (now : Q) (key : CacheKey) (v : value) (c : Cache) : Cache :=
  <[key := (now, v)]> c.

(** ** Usage counter (lines 82-86 of [google_search]) *)

Definition record_call (day : string) (date : string) (count : Z) : string * Z :=
  let (date, count) :=
    if negb (String.eqb date day) then (day, 0) else (date, count) in
  (date, count + 1).

(** ** Search client *)

Definition clamp_start (start_index : Z) : Z := Z.max 1 (Z.min start_index 91).
Definition clamp_num (num : Z) : Z := Z.max 1 (Z.min num 10).

(** [search_type or "web"] *)
Definition kind_or_web (search_type : option string) : string :=
  match search_type with
  | None => "web"
  | Some s => if String.eqb s EmptyString then "web" else s
  end.

Definition cache_key (query : string) (start_index num : Z)
    (search_type : option string) : CacheKey :=
  let start_index := clamp_start start_index in
  let num := clamp_num num in
  (query +:+ "|" +:+ str_int num, start_index, kind_or_web search_type).

Definition search_request (cfg : config) (query : string) (start_index num : Z)
    (search_type : option string) : request :=
  {| rq_key := API_KEY cfg;
     rq_cx := CX cfg;
     rq_q := query;
     rq_num := clamp_num num;
     rq_start := clamp_start start_index;
     rq_searchType := if unset search_type then None else search_type;
     rq_timeout := 15 |}.

Definition google_search (cfg : config) (w : world) (query : string)
    (start_index num : Z) (search_type : option string) (st : state)
    : result value * state :=
  if unset (API_KEY cfg) || unset (CX cfg) then
    (Raise (RuntimeError
       "Variables d'environnement manquantes: GOOGLE_API_KEY et GOOGLE_CSE_ID"),
     st)
  else
    let key := cache_key query start_index num search_type in
    let (cached, c1) := _cache_get (clock_read w) key (_cache st) in
    let st1 := mkState c1 (counter_date st) (counter_count st) (net_log st) in
    if truthy cached then (Ok cached, st1)
    else
      let rq := search_request cfg query start_index num search_type in
      let st2 := mkState c1 (counter_date st) (counter_count st)
                   (rq :: net_log st) in
      match search_api w rq with
      | Unreachable => (Raise RequestException, st2)
      | Replied r =>
          if raises_for_status r then (Raise (HTTPError r), st2)
          else
            match json_body r with
            | None => (Raise JSONDecodeError, st2)
            | Some data =>
                let (date, count) :=
                  record_call (today w) (counter_date st) (counter_count st) in
                (Ok data,
                 mkState (_cache_set (clock_store w) key data c1)
                   date count (rq :: net_log st))
            end
      end.

(** The state at import time: an empty cache and a counter at zero for
    the date of the import (lines 28 and 32). *)
Definition initial_state (date : string) : state := mkState ∅ date 0 [].

(** The states a process can be in: the two handlers change the state
    through [google_search] only, and the configuration is read once,
    at import time. *)
Inductive reachable (cfg : config) : state -> Prop :=
| reach_init (date : string) : reachable cfg (initial_state date)
| reach_search (w : world) (q : string) (s n : Z) (k : option string) (st : state) :
    reachable cfg st -> reachable cfg (snd (google_search cfg w q s n k st)).

(** ** Operations on dynamically typed values *)

Fixpoint assoc (k : string) (d : list (string * value)) : option value :=
  match d with
  | [] => None
  | (k', v) :: d' => if String.eqb k k' then Some v else assoc k d'
  end.

(** [v.get(k, default)]: only a dict has the method. *)
Definition meth_get (v : value) (k : string) (default : value) : result value :=
  match v with
  | VDict d => Ok (match assoc k d with Some x => x | None => default end)
  | _ => Raise AttributeError
  end.

(** [v[0]] *)
Definition item0 (v : value) : result value :=
  match v with
  | VList (x :: _) => Ok x
  | VList [] => Raise IndexError
  | VStr (String c _) => Ok (VStr (String c EmptyString))
  | VStr EmptyString => Raise IndexError
  | VDict _ => Raise KeyError
  | _ => Raise TypeError
  end.

(** [for it in v]: the elements visited. *)
Definition py_iter (v : value) : result (list value) :=
  match v with
  | VList l => Ok l
  | VStr s => Ok (map (fun c => VStr (String c EmptyString)) (list_ascii_of_string s))
  | VDict d => Ok (map (fun kv => VStr (fst kv)) d)
  | _ => Raise TypeError
  end.

(** [a + b] with a str on the left: defined for a str on the right
    only. *)
Definition str_add (a : string) (b : value) : result string :=
  match b with
  | VStr s => Ok (a +:+ s)
  | _ => Raise TypeError
  end.

(** [sub in s] on strings. *)
Fixpoint contains (sub s : string) : bool :=
  String.prefix sub s ||
  match s with
  | EmptyString => false
  | String _ s' => contains sub s'
  end.

(** [s.split(sep)] for a one-character separator: never empty. *)
Fixpoint str_split (sep : ascii) (s : string) : list string :=
  match s with
  | EmptyString => [EmptyString]
  | String c s' =>
      if Ascii.eqb c sep then EmptyString :: str_split sep s'
      else match str_split sep s' with
           | p :: ps => String c p :: ps
           | [] => [String c EmptyString]
           end
  end.

(** [sep.join(l)] *)
Fixpoint str_join (sep : string) (l : list string) : string :=
  match l with
  | [] => EmptyString
  | [p] => p
  | p :: ps => p +:+ sep +:+ str_join sep ps
  end.

(** [l[:n]] *)
Definition slice_to {A : Type} (n : Z) (l : list A) : list A :=
  if 0 <=? n then firstn (Z.to_nat n) l
  else firstn (length l - Z.to_nat (- n)) l.

(** What the interpreter and the standard library supply: [str.strip],
    [int(s)] and [float(s)] ([None] when they raise [ValueError]),
    whether [urlparse(u)] raises [ValueError] (as it does for an
    unbalanced bracket in the host), [urlparse(u).netloc] and
    [urlparse(u).path] when it does not, [unquote], and [str(e)] for
    the exceptions whose text the module does not choose. *)
Record pylib : Type := mkPylib {
  strip : string -> string;
  int_of_string : string -> option Z;
  float_of_string : string -> option pyfloat;
  urlparse_raises : string -> bool;
  urlparse_netloc : string -> string;
  urlparse_path : string -> string;
  unquote : string -> string;
  exn_message : exn -> string
}.

(** [str(e)] *)
Definition str_exn (L : pylib) (e : exn) : string :=
  match e with
  | RuntimeError msg => msg
  | _ => exn_message L e
  end.

(** The integers that [float] refuses with [OverflowError]: those that
    round (to nearest, ties to even) beyond the largest double,
    2^1024 - 2^971. *)
Definition float_overflows (z : Z) : bool :=
  2 ^ 1024 - 2 ^ 970 <=? Z.abs z.

(** [float(v)] *)
Definition py_float (L : pylib) (v : value) : result pyfloat :=
  match v with
  | VInt z =>
      if float_overflows z then Raise OverflowError
      else Ok (Finite (inject_Z z))
  | VFloat f => Ok f
  | VBool b => Ok (Finite (if b then 1%Q else 0%Q))
  | VStr s =>
      match float_of_string L s with
      | Some f => Ok f
      | None => Raise ValueError
      end
  | _ => Raise TypeError
  end.

Definition rbind {A B : Type} (r : result A) (k : A -> result B) : result B :=
  match r with
  | Ok a => k a
  | Raise e => Raise e
  end.

Notation "'let!' x ':=' c 'in' k" := (rbind c (fun x => k))
  (at level 10, x name, c at level 100, k at level 200).

(** [a or b] where evaluating [b] may raise. *)
Definition or_else (a : value) (b : result value) : result value :=
  if truthy a then Ok a else b.

(** ** Place lookup *)

Definition allowed_classes : list string :=
  ["place"; "boundary"; "building"; "amenity"; "tourism"; "highway";
   "shop"; "leisure"; "natural"; "historic"].

(** [v in allowed_classes]: hashing a list or a dict raises. *)
Definition in_allowed (v : value) : result bool :=
  match v with
  | VStr s => Ok (existsb (String.eqb s) allowed_classes)
  | VList _ | VDict _ => Raise TypeError
  | _ => Ok false
  end.

(** Lines 116-129: the two filters, applied to the candidate [res]. *)
Definition verdict (L : pylib) (res : value) : result value :=
  let! cls := meth_get res "class" VNone in
  let! ok := in_allowed cls in
  if negb ok then Ok VNone
  else
    let! imp := meth_get res "importance" (VInt 0) in
    let! f := py_float L imp in
    (* f < 0.3 *)
    if float_lt f (3 # 10) then Ok VNone else Ok res.

(** The body of the [try] of [osm_search] (lines 107-129). *)
Definition osm_attempt (L : pylib) (w : world) (query ua : string) : result value :=
  match osm_api w query ua with
  | Unreachable => Raise RequestException
  | Replied r =>
      if raises_for_status r then Raise (HTTPError r)
      else
        match json_body r with
        | None => Raise JSONDecodeError
        | Some data =>
            if negb (truthy data) then Ok VNone
            else
              let! res := item0 data in
              verdict L res
        end
  end.

(** The [User-Agent] header of line 104. *)
Definition user_agent (mail : string) : string :=
  "MiniMetaSearch/1.0 (contact: " +:+ mail +:+ ")".

Definition osm_search (L : pylib) (cfg : config) (w : world) (query : string)
    : result value :=
  (* line 104 is outside the try: str + None raises *)
  match MAIL cfg with
  | None => Raise TypeError
  | Some mail =>
      match osm_attempt L w query (user_agent mail) with
      | Ok v => Ok v
      | Raise _ => Ok VNone
      end
  end.

(** ** Summary shortener *)

(** [\s] on characters below 256: what [str.isspace] accepts there. *)
Definition is_space (c : ascii) : bool :=
  let n := nat_of_ascii c in
  ((9 <=? n) && (n <=? 13) || (28 <=? n) && (n <=? 31) || (n =? 32)
   || (n =? 133) || (n =? 160))%nat.

(** [[.!?]] *)
Definition is_terminator (c : ascii) : bool :=
  Ascii.eqb c "." || Ascii.eqb c "!" || Ascii.eqb c "?".

(** [re.split(r'(?<=[.!?])\s+', s)], scanning left to right.  A match
    starts at a whitespace character that follows a terminator
    ([after_end]) and, being greedy, swallows the whole run of
    whitespace ([in_sep] says the scan is inside a match).  The result
    is the piece under construction and the pieces after it. *)
Fixpoint split_scan (after_end in_sep : bool) (s : string) : string * list string :=
  match s with
  | EmptyString => (EmptyString, [])
  | String c s' =>
      if is_space c && (after_end || in_sep) then
        if in_sep then split_scan false true s'
        else let (p, ps) := split_scan false true s' in (EmptyString, p :: ps)
      else
        let (p, ps) := split_scan (is_terminator c) false s' in (String c p, ps)
  end.

Definition split_sentences (s : string) : list string :=
  let (p, ps) := split_scan false false s in p :: ps.

Definition shorten_extract (text : string) (max_sentences : Z) : string :=
  let sentences := split_sentences text in
  str_join " " (slice_to max_sentences sentences).

(** ** Language of the encyclopedia edition (line 181) *)

Definition wiki_lang (domain : string) : string :=
  if String.eqb domain EmptyString then "en"
  else match str_split "." domain with
       | p :: _ => p
       | [] => EmptyString
       end.

(** ** Result composer *)

(** One entry of [results] in [home]. *)
Record SearchResultItem : Type := mkItem {
  it_title : value;
  it_link : string;
  it_displayLink : value;
  it_snippet : value;
  it_favicon : string
}.

Record WikiBox : Type := mkWikiBox {
  wb_title : value;
  wb_extract : string;
  wb_thumbnail : value;
  wb_link : string
}.

Record OsmBox : Type := mkOsmBox {
  ob_display_name : value;
  ob_lat : value;
  ob_lon : value;
  ob_type : value;
  ob_road : value;
  ob_postcode : value;
  ob_city : value;
  ob_country : value;
  ob_opening_hours : value
}.

(** The local variables that [home] assigns inside its [try] and hands
    to the template afterwards.  An exception leaves them as they are
    at the point where it is raised. *)
Record locals : Type := mkLocals {
  results : list SearchResultItem;
  info : value;
  wiki_box : option WikiBox;
  osm_box : option OsmBox;
  prev_start : value;
  next_start : value
}.

Definition locals0 : locals := mkLocals [] VNone None None VNone VNone.

(** Statements of the [try] body: they may raise and they update the
    locals. *)
Definition body (A : Type) : Type := locals -> result A * locals.

Definition bret {A : Type} (a : A) : body A := fun l => (Ok a, l).

Definition bbind {A B : Type} (c : body A) (k : A -> body B) : body B :=
  fun l =>
    match c l with
    | (Ok a, l') => k a l'
    | (Raise e, l') => (Raise e, l')
    end.

Definition lift {A : Type} (r : result A) : body A := fun l => (r, l).

Definition modify (f : locals -> locals) : body unit := fun l => (Ok tt, f l).

Definition read : body locals := fun l => (Ok l, l).

Notation "'do!' x ':=' c 'in' k" := (bbind c (fun x => k))
  (at level 10, x name, c at level 100, k at level 200).
Notation "c ';;;' k" := (bbind c (fun _ => k))
  (at level 100, k at level 200, right associativity).

(** [urlparse(link).netloc] as the favicon line uses it.  [urlparse]
    raises [ValueError] on some strings; a link that is not a str
    makes [urlparse] or the concatenation raise. *)
Definition link_netloc (L : pylib) (link : value) : result string :=
  match link with
  | VStr s =>
      if urlparse_raises L s then Raise ValueError
      else Ok (urlparse_netloc L s)
  | v => if truthy v then Raise AttributeError else Raise TypeError
  end.

Definition link_str (link : value) : string :=
  match link with
  | VStr s => s
  | _ => EmptyString
  end.

(** Lines 156-166. *)
Fixpoint append_results (L : pylib) (items : list value) : body unit :=
  match items with
  | [] => bret tt
  | it :: rest =>
      do! link := lift (meth_get it "link" (VStr "#")) in
      do! domain := lift (link_netloc L link) in
      let favicon := "https://www.google.com/s2/favicons?sz=32&domain=" +:+ domain in
      do! title := lift (meth_get it "title" (VStr "(sans titre)")) in
      do! displayLink := lift (meth_get it "displayLink" (VStr EmptyString)) in
      do! snippet := lift (meth_get it "snippet" (VStr EmptyString)) in
      modify (fun l =>
        mkLocals (results l ++ [mkItem title (link_str link) displayLink snippet favicon])
          (info l) (wiki_box l) (osm_box l) (prev_start l) (next_start l)) ;;;
      append_results L rest
  end.

(** [requests.get(url).json()] without a status check. *)
Definition fetch_json (rp : reply) : result value :=
  match rp with
  | Unreachable => Raise RequestException
  | Replied r =>
      match json_body r with
      | Some v => Ok v
      | None => Raise JSONDecodeError
      end
  end.

(** [shorten_extract(raw, 3)]: [re.split] wants a str. *)
Definition shorten_value (raw : value) : result string :=
  match raw with
  | VStr s => Ok (shorten_extract s 3)
  | _ => Raise TypeError
  end.

(** [path.split("/")[-1]] *)
Definition last_segment (path : string) : string :=
  List.last (str_split "/" path) EmptyString.

(** Lines 175-183: the address of the summary of the article that
    [link] points to.  The link is that of the top result, which line
    158 has parsed already: [urlparse] does not raise on it here. *)
Definition summary_url (L : pylib) (link : string) : string :=
  let path := urlparse_path L link in
  let title := unquote L (last_segment path) in
  let domain := urlparse_netloc L link in
  let lang := wiki_lang domain in
  "https://" +:+ lang +:+ ".wikipedia.org/api/rest_v1/page/summary/" +:+ title.

(** Lines 173-194. *)
Definition encyclopedia_box (L : pylib) (w : world) : body unit :=
  do! l := read in
  match results l with
  | [] => bret tt
  | top :: _ =>
      if contains "wikipedia.org" (it_link top) then
        do! wj := lift (fetch_json (wiki_api w (summary_url L (it_link top)))) in
        do! raw_extract := lift (meth_get wj "extract" (it_snippet top)) in
        do! short_extract := lift (shorten_value raw_extract) in
        do! wtitle := lift (meth_get wj "title" (it_title top)) in
        do! thumb := lift (meth_get wj "thumbnail" (VDict [])) in
        do! src := lift (meth_get thumb "source" VNone) in
        modify (fun l =>
          mkLocals (results l) (info l)
            (Some (mkWikiBox wtitle short_extract src (it_link top)))
            (osm_box l) (prev_start l) (next_start l))
      else bret tt
  end.

(** Lines 198-217. *)
Definition place_box (L : pylib) (cfg : config) (w : world) (q : string) : body unit :=
  let place :=
    match osm_search L cfg w q with
    | Ok v => v
    | Raise _ => VNone
    end in
  if truthy place then
    do! a := lift (meth_get place "address" (VDict [])) in
    let addr := py_or a (VDict []) in
    do! x := lift (meth_get place "extratags" (VDict [])) in
    let extratags := py_or x (VDict []) in
    do! display_name := lift (meth_get place "display_name" VNone) in
    do! lat := lift (meth_get place "lat" VNone) in
    do! lon := lift (meth_get place "lon" VNone) in
    do! ty := lift (meth_get place "type" VNone) in
    do! road := lift (meth_get addr "road" VNone) in
    do! postcode := lift (meth_get addr "postcode" VNone) in
    do! city := lift (let! c := meth_get addr "city" VNone in
                      or_else c (let! t := meth_get addr "town" VNone in
                                 or_else t (meth_get addr "village" VNone))) in
    do! country := lift (meth_get addr "country" VNone) in
    do! hours := lift (meth_get extratags "opening_hours" VNone) in
    modify (fun l =>
      mkLocals (results l) (info l) (wiki_box l)
        (Some (mkOsmBox display_name lat lon ty road postcode city country hours))
        (prev_start l) (next_start l))
  else bret tt.

(** [lst[0].get("startIndex")] when [lst] is truthy. *)
Definition cursor (lst : value) (old : value) : result value :=
  if truthy lst then
    let! first := item0 lst in
    meth_get first "startIndex" VNone
  else Ok old.

Definition is_dict (v : value) : bool :=
  match v with
  | VDict _ => true
  | _ => false
  end.

(** Lines 219-226 (and 273-280 in [images]) on the pair of cursors
    [(prev_start, next_start)]: the next cursor is assigned before the
    previous one is looked at. *)
Definition page_cursors (data : value) (pn : value * value)
    : result unit * (value * value) :=
  match
    (let! queries := meth_get data "queries" (VDict []) in
     if is_dict queries then
       let! n := meth_get queries "nextPage" VNone in
       let! p := meth_get queries "previousPage" VNone in
       Ok (Some (py_or n (VList []), py_or p (VList [])))
     else Ok None)
  with
  | Raise e => (Raise e, pn)
  | Ok None => (Ok tt, pn)
  | Ok (Some (next_list, prev_list)) =>
      match cursor next_list (snd pn) with
      | Raise e => (Raise e, pn)
      | Ok next' =>
          match cursor prev_list (fst pn) with
          | Raise e => (Raise e, (fst pn, next'))
          | Ok prev' => (Ok tt, (prev', next'))
          end
      end
  end.

Definition pagination (data : value) : body unit :=
  fun l =>
    let (r, pn) := page_cursors data (prev_start l, next_start l) in
    (r, mkLocals (results l) (info l) (wiki_box l) (osm_box l) (fst pn) (snd pn)).

(** Lines 154-226: the [try] body of [home] once [google_search] has
    returned [data]. *)
Definition compose_web (L : pylib) (cfg : config) (w : world) (q : string)
    (data : value) : body unit :=
  do! i := lift (meth_get data "searchInformation" VNone) in
  modify (fun l =>
    mkLocals (results l) (py_or i (VDict [])) (wiki_box l) (osm_box l)
      (prev_start l) (next_start l)) ;;;
  do! its := lift (meth_get data "items" VNone) in
  do! items := lift (py_iter (py_or its (VList []))) in
  append_results L items ;;;
  encyclopedia_box L w ;;;
  place_box L cfg w q ;;;
  pagination data.

(** The expression of lines 229 and 283, evaluated left to right. *)
Definition http_error_text (r : Response) : result string :=
  let! a := str_add "HTTP " (VInt (status_code r)) in
  let! b := str_add a (VStr ": ") in
  let! c := str_add b (VStr (String.substring 0 200 (text r))) in
  str_add c (VStr "…").

(** The two [except] clauses.  [None]: the [try] body finished.  An
    exception raised while a handler runs is not seen by the other
    handler of the same [try]: it leaves the function. *)
Definition handle (L : pylib) (raised : option exn) : result (option string) :=
  match raised with
  | None => Ok None
  | Some (HTTPError r) =>
      let! msg := http_error_text r in Ok (Some msg)
  | Some e => Ok (Some (str_exn L e))
  end.

(** Lines 136-141 and 250-255. *)
Definition parse_start (L : pylib) (start : string) : Z :=
  match int_of_string L start with
  | Some n => n
  | None => 1
  end.

(** The keyword arguments of [render_template] in [home]. *)
Record WebPage : Type := mkWebPage {
  pg_q : string;
  pg_results : list SearchResultItem;
  pg_info : value;
  pg_error : option string;
  pg_prev_start : value;
  pg_next_start : value;
  pg_count : Z;
  pg_wiki_box : option WikiBox;
  pg_osm_box : option OsmBox
}.

(** [home], from the raw [q] and [start] arguments of the request. *)
Definition home (L : pylib) (cfg : config) (w : world) (arg_q arg_start : string)
    (st : state) : result WebPage * state :=
  let q := strip L arg_q in
  let start_index := parse_start L arg_start in
  let '(raised, l, st') :=
    if String.eqb q EmptyString then (None, locals0, st)
    else
      match google_search cfg w q start_index 10 None st with
      | (Raise e, st') => (Some e, locals0, st')
      | (Ok data, st') =>
          match compose_web L cfg w q data locals0 with
          | (Ok _, l) => (None, l, st')
          | (Raise e, l) => (Some e, l, st')
          end
      end in
  match handle L raised with
  | Raise e => (Raise e, st')
  | Ok error =>
      (Ok (mkWebPage q (results l) (info l) error (prev_start l) (next_start l)
             (counter_count st') (wiki_box l) (osm_box l)),
       st')
  end.

(** ** Image composer *)

Record ImageItem : Type := mkImageItem {
  im_link : value;
  im_thumbnail : value;
  im_context : value
}.

Record ImagePage : Type := mkImagePage {
  ip_q : string;
  ip_results : list ImageItem;
  ip_error : option string;
  ip_prev_start : value;
  ip_next_start : value;
  ip_count : Z
}.

(** Locals of [images]: results, previous and next cursor. *)
Definition ilocals : Type := (list ImageItem * value * value)%type.

(** Lines 266-271; the first component is what has been appended when
    the loop stops. *)
Fixpoint append_images (items : list value) (acc : list ImageItem)
    : result unit * list ImageItem :=
  match items with
  | [] => (Ok tt, acc)
  | it :: rest =>
      let entry :=
        let! link := meth_get it "link" (VStr "#") in
        let! img := meth_get it "image" (VDict []) in
        let! dflt := meth_get it "link" (VStr EmptyString) in
        let! thumbnail := meth_get img "thumbnailLink" dflt in
        let! img' := meth_get it "image" (VDict []) in
        let! dflt' := meth_get it "link" (VStr EmptyString) in
        let! context := meth_get img' "contextLink" dflt' in
        Ok (mkImageItem link thumbnail context) in
      match entry with
      | Ok e => append_images rest (acc ++ [e])
      | Raise e => (Raise e, acc)
      end
  end.

(** Lines 265-280. *)
Definition compose_images (data : value) : result unit * ilocals :=
  match (let! its := meth_get data "items" VNone in py_iter (py_or its (VList []))) with
  | Raise e => (Raise e, ([], VNone, VNone))
  | Ok items =>
      match append_images items [] with
      | (Raise e, rs) => (Raise e, (rs, VNone, VNone))
      | (Ok _, rs) =>
          let (r, pn) := page_cursors data (VNone, VNone) in
          (r, (rs, fst pn, snd pn))
      end
  end.

Definition images (L : pylib) (cfg : config) (w : world) (arg_q arg_start : string)
    (st : state) : result ImagePage * state :=
  let q := strip L arg_q in
  let start_index := parse_start L arg_start in
  let '(raised, l, st') :=
    if String.eqb q EmptyString then (None, ([], VNone, VNone), st)
    else
      match google_search cfg w q start_index 10 (Some "image") st with
      | (Raise e, st') => (Some e, ([], VNone, VNone), st')
      | (Ok data, st') =>
          match compose_images data with
          | (Ok _, l) => (None, l, st')
          | (Raise e, l) => (Some e, l, st')
          end
      end in
  match handle L raised with
  | Raise e => (Raise e, st')
  | Ok error =>
      let '(rs, p, n) := l in
      (Ok (mkImagePage q rs error p n (counter_count st')), st')
  end.

(** ** Vocabulary of the place-lookup policy *)





(** ** Vocabulary of the sentence splitter *)

(** Whether the scan is just after a terminator once it has read [p],
    having started in that situation or not according to [b]. *)
Fixpoint ends_sentence (b : bool) (p : string) : bool :=
  match p with
  | EmptyString => b
  | String c p' => ends_sentence (is_terminator c) p'
  end.

Definition no_leading_space (p : string) : Prop :=
  match p with
  | EmptyString => True
  | String c _ => is_space c = false
  end.

(** [p] holds no sentence boundary. *)
Definition unbroken (b : bool) (p : string) : Prop :=
  split_scan b false p = (p, []).

(** A list of pieces as [re.split] produces them: none holds a
    boundary, each one but the last ends with a terminator, each one
    but the first starts with a character that is not whitespace. *)
Fixpoint pieces_ok (b : bool) (l : list string) : Prop :=
  match l with
  | [] => True
  | p :: r =>
      unbroken b p /\
      match r with
      | [] => True
      | q :: _ => ends_sentence b p = true /\ no_leading_space q /\ pieces_ok false r
      end
  end.





(** ** Sample inputs *)

Definition demo_cfg : config :=
  mkConfig (Some "k3y") (Some "cx01") (Some "ops@example.org").

Definition demo_lib : pylib :=
  mkPylib (fun s => s) (fun _ => Some 1) (fun _ => None) (fun _ => false)
    (fun _ => "fr.wikipedia.org") (fun _ => "/wiki/Paris") (fun s => s)
    (fun _ => "failure").

Definition demo_payload : value :=
  VDict [("items",
          VList [VDict [("title", VStr "Paris");
                        ("link", VStr "https://fr.wikipedia.org/wiki/Paris");
                        ("snippet", VStr "Paris est la capitale.")]]);
         ("queries",
          VDict [("nextPage", VList [VDict [("startIndex", VInt 11)]])])].

Definition demo_place : value :=
  VDict [("class", VStr "shop"); ("importance", VFloat (1 # 2));
         ("display_name", VStr "Paris, France"); ("lat", VStr "48.85");
         ("lon", VStr "2.35")].

(** The search provider answers 200 with [demo_payload], the geocoder
    answers with [demo_place], the encyclopedia is unreachable. *)
Definition demo_world : world :=
  mkWorld 10 11 "2026-01-02"
    (fun _ => Replied (mkResponse 200 EmptyString (Some demo_payload)))
    (fun _ => Unreachable)
    (fun _ _ => Replied (mkResponse 200 EmptyString (Some (VList [demo_place])))).




(** The search provider refuses with 403. *)
Definition forbidden_world : world :=
  mkWorld 10 11 "2026-01-02"
    (fun _ => Replied (mkResponse 403 "Forbidden" None))
    (fun _ => Unreachable)
    (fun _ _ => Unreachable).

(** The search provider answers 200 with the empty object. *)
Definition empty_reply_world : world :=
  mkWorld 10 11 "2026-01-02"
    (fun _ => Replied (mkResponse 200 "{}" (Some (VDict []))))
    (fun _ => Unreachable)
    (fun _ _ => Unreachable).

(** As [demo_world], five seconds later. *)
Definition later_world : world :=
  mkWorld 16 17 "2026-01-02" (search_api demo_world) (wiki_api demo_world)
    (osm_api demo_world).

(** The state after one search for "onyx" in world [w], in a process
    imported on 2 January 2026. *)
Definition after_first_search (w : world) : state :=
  snd (google_search demo_cfg w "onyx" 1 10 None (initial_state "2026-01-02")).

(** As [demo_world], with the encyclopedia answering. *)
Definition answering_world : world :=
  mkWorld 10 11 "2026-01-02"
    (search_api demo_world)
    (fun _ => Replied (mkResponse 200 EmptyString
       (Some (VDict [("title", VStr "Paris");
                     ("extract", VStr "Paris est la capitale de la France.")]))))
    (osm_api demo_world).

(** ** Vocabulary of the further properties *)

Definition is_http_error (e : exn) : bool :=
  match e with
  | HTTPError _ => true
  | _ => false
  end.

(** The page of a request that led to no search result. *)
Definition blank_web_page (q : string) (error : option string) (count : Z) : WebPage :=
  mkWebPage q [] VNone error VNone VNone count None None.

Definition blank_image_page (q : string) (error : option string) (count : Z)
    : ImagePage :=
  mkImagePage q [] error VNone VNone count.

Definition favicon_prefix : string :=
  "https://www.google.com/s2/favicons?sz=32&domain=".

(** What [google_search] says when a credential is missing (line 56). *)
Definition missing_credentials : string :=
  "Variables d'environnement manquantes: GOOGLE_API_KEY et GOOGLE_CSE_ID".

(** [m.get(k)] on the items of a dict. *)
Definition dict_field (k : string) (m : list (string * value)) : value :=
  match assoc k m with
  | Some x => x
  | None => VNone
  end.

(** * Properties *)

(** ** Shared facts *)

Lemma Qle_bool_false (x y : Q) : (y < x)%Q -> Qle_bool x y = false.
Proof.
  intros H. destruct (Qle_bool x y) eqn:E; [|reflexivity].
  apply Qle_bool_iff in E. exfalso. exact (Qlt_not_le _ _ H E).
Qed.

Lemma Qle_bool_true (x y : Q) : (x <= y)%Q -> Qle_bool x y = true.
Proof. intros H. by apply Qle_bool_iff. Qed.

Lemma cache_get_fresh (now ts : Q) (key : CacheKey) (v : value) (c : Cache) :
  c !! key = Some (ts, v) -> (now - ts <= CACHE_TTL_SEC)%Q ->
  _cache_get now key c = (v, c).
Proof.
  intros Hk Hf. unfold _cache_get. rewrite Hk.
  by rewrite (Qle_bool_true _ _ Hf).
Qed.

Lemma cache_get_stale (now ts : Q) (key : CacheKey) (v : value) (c : Cache) :
  c !! key = Some (ts, v) -> (CACHE_TTL_SEC < now - ts)%Q ->
  _cache_get now key c = (VNone, delete key c).
Proof.
  intros Hk Hs. unfold _cache_get. rewrite Hk.
  by rewrite (Qle_bool_false _ _ Hs).
Qed.

Lemma clamp_start_range (s : Z) : 1 <= clamp_start s <= 91.
Proof. unfold clamp_start. lia. Qed.

Lemma clamp_num_range (n : Z) : 1 <= clamp_num n <= 10.
Proof. unfold clamp_num. lia. Qed.

Lemma state_eta (st : state) :
  mkState (_cache st) (counter_date st) (counter_count st) (net_log st) = st.
Proof. by destruct st. Qed.

(** ** Response cache *)

(** C4: a [_cache_set] followed by a [_cache_get] on the same key no
    later than the TTL returns the payload that was stored and keeps
    the entry; a [_cache_get] on a key whose entry is older than the
    60 seconds of the TTL returns [None] and deletes the entry from
    [_cache]. *)
Theorem cache_set_then_get
    (key : CacheKey) (v old : value) (c : Cache) (t_set t_get ts now : Q) :
  ((t_get - t_set <= 60)%Q ->
     _cache_get t_get key (_cache_set t_set key v c)
     = (v, _cache_set t_set key v c)) /\
  (c !! key = Some (ts, old) -> (60 < now - ts)%Q ->
     _cache_get now key c = (VNone, delete key c) /\
     delete key c !! key = None).
Proof.
  split.
  - intros Hage. apply (cache_get_fresh _ t_set); [|exact Hage].
    unfold _cache_set. apply lookup_insert_eq.
  - intros Hk Hold. split.
    + by apply (cache_get_stale now ts key old).
    + apply lookup_delete_eq.
Qed.

Lemma cache_set_then_get_witness :
  _cache_get 7 ("onyx|10", 1, "web") (_cache_set 5 ("onyx|10", 1, "web") (VDict []) ∅)
  = (VDict [], _cache_set 5 ("onyx|10", 1, "web") (VDict []) ∅) /\
  _cache_get 100 ("onyx|10", 1, "web") {[ ("onyx|10", 1, "web") := (5%Q, VInt 3) ]}
  = (VNone, delete ("onyx|10", 1, "web") {[ ("onyx|10", 1, "web") := (5%Q, VInt 3) ]}).
Proof.
  split.
  - apply (cache_set_then_get ("onyx|10", 1, "web") (VDict []) VNone ∅ 5 7 0 0).
    unfold Qle. simpl. lia.
  - apply (cache_set_then_get ("onyx|10", 1, "web") VNone (VInt 3)
             {[ ("onyx|10", 1, "web") := (5%Q, VInt 3) ]} 0 0 5 100).
    + apply lookup_singleton_eq.
    + unfold Qlt. simpl. lia.
Defined.

(** ** Usage counter *)

(** C5: recording a call on a date other than the stored one sets the
    stored date to the new one and the count to 1 (reset to zero, then
    incremented); recording on the stored date adds one.  So two calls
    recorded on the date of a fresh counter give 2 and a third one on
    another date gives 1.  [google_search] applies exactly this update
    when an upstream call succeeds, and leaves the counter alone
    otherwise. *)
Theorem counter_daily_reset
    (day other : string) (count : Z)
    (cfg : config) (w : world) (q : string) (s n : Z) (k : option string)
    (st : state) :
  (other <> day -> record_call day other count = (day, 1)) /\
  record_call day day count = (day, count + 1) /\
  (let (d1, c1) := record_call day day 0 in
   let (d2, c2) := record_call day d1 c1 in
   c2 = 2 /\ (other <> day -> record_call other d2 c2 = (other, 1))) /\
  (let (r, st') := google_search cfg w q s n k st in
   (forall data,
      r = Ok data -> net_log st' = search_request cfg q s n k :: net_log st ->
      (counter_date st', counter_count st')
      = record_call (today w) (counter_date st) (counter_count st)) /\
   ((net_log st' = net_log st \/ forall data, r <> Ok data) ->
      (counter_date st', counter_count st')
      = (counter_date st, counter_count st))).
Proof.
  assert (Hsame : forall d c, record_call d d c = (d, c + 1)).
  { intros d c. unfold record_call. by rewrite String.eqb_refl. }
  assert (Hdiff : forall d d' c, d' <> d -> record_call d d' c = (d, 1)).
  { intros d d' c Hne. unfold record_call.
    apply String.eqb_neq in Hne. by rewrite Hne. }
  split; [apply Hdiff|]. split; [apply Hsame|]. split.
  - rewrite Hsame. rewrite Hsame. split; [reflexivity|].
    intros Hne. apply Hdiff. congruence.
  - unfold google_search.
    destruct (unset (API_KEY cfg) || unset (CX cfg)).
    { split; [|done]. intros data _ Hlog. exfalso.
      apply (f_equal length) in Hlog. simpl in Hlog. lia. }
    destruct (_cache_get _ _ _) as [cached c1].
    destruct (truthy cached).
    { split; [|done]. intros data _ Hlog. exfalso.
      apply (f_equal length) in Hlog. simpl in Hlog. lia. }
    destruct (search_api w _) as [|r]; [by split|].
    destruct (raises_for_status r); [by split|].
    destruct (json_body r) as [data|]; [|by split].
    destruct (record_call _ _ _) as [date cnt] eqn:Erc.
    split; [done|].
    intros [Hlog|Hno]; simpl in *.
    + exfalso. apply (f_equal length) in Hlog. simpl in Hlog. lia.
    + exfalso. by apply (Hno data).
Qed.

Lemma counter_daily_reset_witness :
  record_call "2026-01-02" "2026-01-01" 2 = ("2026-01-02"%string, 1).
Proof.
  apply (counter_daily_reset "2026-01-02" "2026-01-01" 2
           demo_cfg demo_world "onyx" 1 10 None (initial_state "2026-01-01")).
  discriminate.
Defined.

(** ** Search client *)

Lemma google_search_miss
    (cfg : config) (w : world) (q : string) (s n : Z) (k : option string)
    (st : state) (r : Response) (data : value) :
  unset (API_KEY cfg) = false -> unset (CX cfg) = false ->
  truthy (fst (_cache_get (clock_read w) (cache_key q s n k) (_cache st))) = false ->
  search_api w (search_request cfg q s n k) = Replied r ->
  raises_for_status r = false -> json_body r = Some data ->
  google_search cfg w q s n k st
  = (Ok data,
     mkState
       (_cache_set (clock_store w) (cache_key q s n k) data
          (snd (_cache_get (clock_read w) (cache_key q s n k) (_cache st))))
       (fst (record_call (today w) (counter_date st) (counter_count st)))
       (snd (record_call (today w) (counter_date st) (counter_count st)))
       (search_request cfg q s n k :: net_log st)).
Proof.
  intros Hk Hcx Hmiss Hnet Hst Hjs. unfold google_search.
  rewrite Hk, Hcx. simpl.
  destruct (_cache_get _ _ _) as [cached c1]. simpl in Hmiss. rewrite Hmiss.
  rewrite Hnet, Hst, Hjs.
  by destruct (record_call _ _ _).
Qed.

Lemma reachable_cache_credentials
    (cfg : config) (st : state) (key : CacheKey) (entry : Q * value) :
  reachable cfg st -> _cache st !! key = Some entry ->
  unset (API_KEY cfg) || unset (CX cfg) = false.
Proof.
  induction 1 as [date|w q s n k st Hst IH]; intros Hin.
  - simpl in Hin. by rewrite lookup_empty in Hin.
  - destruct (unset (API_KEY cfg) || unset (CX cfg)) eqn:E; [|reflexivity].
    unfold google_search in Hin. rewrite E in Hin. by apply IH.
Qed.

(** C3 (amended): in any state the process can reach, a call whose
    cache key maps to a present, fresh entry (age at most the TTL) with
    a truthy payload returns that payload and leaves the whole state as
    it was: no request is issued and the counter keeps its value.  A
    call that returns after issuing an upstream request has issued
    exactly that one request and has incremented the counter exactly
    once (after the reset, on a new date). *)
Theorem cache_hit_skips_network
    (cfg : config) (w : world) (q : string) (s n : Z) (k : option string)
    (st : state) :
  reachable cfg st ->
  (forall ts payload,
     _cache st !! cache_key q s n k = Some (ts, payload) ->
     (clock_read w - ts <= 60)%Q -> truthy payload = true ->
     google_search cfg w q s n k st = (Ok payload, st)) /\
  (forall data st',
     google_search cfg w q s n k st = (Ok data, st') ->
     net_log st' <> net_log st ->
     net_log st' = search_request cfg q s n k :: net_log st /\
     counter_date st' = today w /\
     counter_count st'
     = (if String.eqb (counter_date st) (today w) then counter_count st else 0) + 1).
Proof.
  intros Hreach. split.
  - intros ts payload Hin Hfresh Htrue. unfold google_search.
    rewrite (reachable_cache_credentials _ _ _ _ Hreach Hin).
    rewrite (cache_get_fresh _ ts _ payload _ Hin Hfresh), Htrue.
    by rewrite state_eta.
  - intros data st'. unfold google_search.
    destruct (unset (API_KEY cfg) || unset (CX cfg)); [discriminate|].
    destruct (_cache_get _ _ _) as [cached c1].
    destruct (truthy cached).
    { intros [= _ <-] Hlog. by exfalso. }
    destruct (search_api w _) as [|r]; [discriminate|].
    destruct (raises_for_status r); [discriminate|].
    destruct (json_body r) as [data'|]; [|discriminate].
    unfold record_call.
    destruct (String.eqb (counter_date st) (today w)) eqn:E; simpl;
      intros [= _ <-] _; simpl; [|done].
    apply String.eqb_eq in E. by rewrite E.
Qed.

Lemma cache_hit_skips_network_witness :
  google_search demo_cfg later_world "onyx" 1 10 None (after_first_search demo_world)
  = (Ok demo_payload, after_first_search demo_world).
Proof.
  apply (cache_hit_skips_network demo_cfg later_world "onyx" 1 10 None
           (after_first_search demo_world))
    with (ts := 11%Q).
  - apply reach_search, reach_init.
  - vm_compute. reflexivity.
  - unfold Qle. simpl. lia.
  - reflexivity.
Defined.

(** C3 as stated fails.  A first search gets the empty object from the
    provider and caches it.  Five seconds later the entry is present
    and fresh, yet [if cached:] takes the empty payload for a miss: the
    second search issues a second request, returns what the provider
    now sends and moves the counter from 1 to 2. *)
Lemma cached_empty_payload_is_refetched :
  let st := after_first_search empty_reply_world in
  reachable demo_cfg st /\
  _cache st !! cache_key "onyx" 1 10 None = Some (11%Q, VDict []) /\
  (clock_read later_world - 11 <= 60)%Q /\
  fst (google_search demo_cfg later_world "onyx" 1 10 None st) = Ok demo_payload /\
  Ok (A := value) demo_payload <> Ok (VDict []) /\
  length (net_log st) = 1%nat /\
  length (net_log (snd (google_search demo_cfg later_world "onyx" 1 10 None st)))
  = 2%nat /\
  counter_count st = 1 /\
  counter_count (snd (google_search demo_cfg later_world "onyx" 1 10 None st)) = 2.
Proof.
  split; [apply reach_search, reach_init|].
  split; [vm_compute; reflexivity|].
  split; [unfold Qle; simpl; lia|].
  split; [vm_compute; reflexivity|].
  split; [discriminate|].
  repeat split; vm_compute; reflexivity.
Qed.

(** C6: the start index is clamped to [1, 91] and the page size to
    [1, 10] (values inside the interval are kept, values outside go to
    the nearest bound): 0 becomes 1, 999 becomes 91, a page size of 50
    becomes 10.  Whenever [google_search] issues an upstream request,
    that request carries the clamped values, and so does the cache
    key. *)
Theorem search_client_clamps
    (cfg : config) (w : world) (q : string) (s n : Z) (k : option string)
    (st : state) :
  clamp_start s = (if s <? 1 then 1 else if 91 <? s then 91 else s) /\
  clamp_num n = (if n <? 1 then 1 else if 10 <? n then 10 else n) /\
  1 <= clamp_start s <= 91 /\ 1 <= clamp_num n <= 10 /\
  clamp_start 0 = 1 /\ clamp_start 999 = 91 /\ clamp_num 50 = 10 /\
  snd (fst (cache_key q s n k)) = clamp_start s /\
  (let st' := snd (google_search cfg w q s n k st) in
   net_log st' = net_log st \/
   exists rq, net_log st' = rq :: net_log st /\
     rq_start rq = clamp_start s /\ rq_num rq = clamp_num n /\
     1 <= rq_start rq <= 91 /\ 1 <= rq_num rq <= 10).
Proof.
  split. { unfold clamp_start. destruct (Z.ltb_spec s 1), (Z.ltb_spec 91 s); lia. }
  split. { unfold clamp_num. destruct (Z.ltb_spec n 1), (Z.ltb_spec 10 n); lia. }
  split; [apply clamp_start_range|]. split; [apply clamp_num_range|].
  do 4 (split; [reflexivity|]).
  assert (Hrq : exists rq,
    search_request cfg q s n k :: net_log st = rq :: net_log st /\
    rq_start rq = clamp_start s /\ rq_num rq = clamp_num n /\
    1 <= rq_start rq <= 91 /\ 1 <= rq_num rq <= 10).
  { eexists. split; [reflexivity|]. simpl.
    pose proof (clamp_start_range s). pose proof (clamp_num_range n). lia. }
  unfold google_search.
  destruct (unset (API_KEY cfg) || unset (CX cfg)); [by left|].
  destruct (_cache_get _ _ _) as [cached c1].
  destruct (truthy cached); [by left|].
  destruct (search_api w _) as [|r]; [by right|].
  destruct (raises_for_status r); [by right|].
  destruct (json_body r) as [data|]; [|by right].
  destruct (record_call _ _ _). by right.
Qed.

(** C10: the cache key is computed from the clamped values.  Two calls
    for the same query and kind whose start indices clamp to the same
    number and whose page sizes clamp to the same number have the same
    key, and [google_search] cannot tell them apart. *)
Theorem cache_key_from_clamped
    (cfg : config) (w : world) (q : string) (k : option string)
    (s1 s2 n1 n2 : Z) (st : state) :
  clamp_start s1 = clamp_start s2 -> clamp_num n1 = clamp_num n2 ->
  cache_key q s1 n1 k = cache_key q s2 n2 k /\
  google_search cfg w q s1 n1 k st = google_search cfg w q s2 n2 k st.
Proof.
  intros Hs Hn.
  assert (Hkey : cache_key q s1 n1 k = cache_key q s2 n2 k).
  { unfold cache_key. by rewrite Hs, Hn. }
  split; [exact Hkey|].
  unfold google_search, search_request. by rewrite Hkey, Hs, Hn.
Qed.

Lemma cache_key_from_clamped_witness :
  cache_key "onyx" 0 50 None = cache_key "onyx" 1 10 None /\
  google_search demo_cfg demo_world "onyx" 0 50 None (initial_state "2026-01-02")
  = google_search demo_cfg demo_world "onyx" 1 10 None (initial_state "2026-01-02").
Proof.
  apply (cache_key_from_clamped demo_cfg demo_world "onyx" None 0 1 50 10
           (initial_state "2026-01-02")); reflexivity.
Defined.

(** ** Place lookup *)

Section PlaceLookup.
Variable L : pylib.







End PlaceLookup.



(** The three cases of the specification: shop with 0.5 is kept, shop
    with 0.1 and railway with 0.9 are dropped. *)
Example place_lookup_cases :
  let ask cls imp :=
    osm_search demo_lib demo_cfg
      (mkWorld 0 0 EmptyString (fun _ => Unreachable) (fun _ => Unreachable)
         (fun _ _ => Replied (mkResponse 200 EmptyString
            (Some (VList [VDict [("class", VStr cls); ("importance", VFloat imp)]])))))
      "x" in
  ask "shop"%string (5 # 10)%Q
  = Ok (VDict [("class", VStr "shop"); ("importance", VFloat (5 # 10))]) /\
  ask "shop"%string (1 # 10)%Q = Ok VNone /\
  ask "railway"%string (9 # 10)%Q = Ok VNone.
Proof. repeat split. Qed.

(** An importance that is an integer beyond the range of a float makes
    [float] raise [OverflowError], which the [try] swallows: the
    candidate is dropped. *)
Example place_lookup_overflow :
  osm_search demo_lib demo_cfg
    (mkWorld 0 0 EmptyString (fun _ => Unreachable) (fun _ => Unreachable)
       (fun _ _ => Replied (mkResponse 200 EmptyString
          (Some (VList [VDict [("class", VStr "shop");
                               ("importance", VInt (10 ^ 400))]])))))
    "x"
  = Ok VNone /\
  py_float demo_lib (VInt (10 ^ 400)) = Raise OverflowError /\
  py_float demo_lib (VInt (2 ^ 1024 - 2 ^ 970 - 1))
  = Ok (Finite (inject_Z (2 ^ 1024 - 2 ^ 970 - 1))).
Proof. repeat split; vm_compute; reflexivity. Qed.

(** ** Summary shortener *)

Lemma split_scan_boundary (p rest : string) (b : bool) :
  unbroken b p -> ends_sentence b p = true ->
  split_scan b false (p +:+ String " " rest)
  = (p, fst (split_scan false true rest) :: snd (split_scan false true rest)).
Proof.
  unfold unbroken. revert b. induction p as [|c p IH]; intros b Hu He.
  - simpl in He. subst b. simpl.
    by destruct (split_scan false true rest).
  - simpl in *. destruct (is_space c && (b || false)).
    + destruct (split_scan false true p); discriminate.
    + destruct (split_scan (is_terminator c) false p) as [p1 ps] eqn:E.
      injection Hu as -> ->. by rewrite (IH _ E He).
Qed.

Lemma split_scan_resume (s : string) :
  no_leading_space s -> split_scan false true s = split_scan false false s.
Proof. destruct s as [|c s]; [done|]. simpl. by intros ->. Qed.

Lemma pieces_ok_cons (c : ascii) (b : bool) (p : string) (ps : list string) :
  is_space c && b = false -> pieces_ok (is_terminator c) (p :: ps) ->
  pieces_ok b (String c p :: ps).
Proof.
  intros Hc [Hu Hrest].
  assert (Hu' : unbroken b (String c p)).
  { unfold unbroken in *. simpl. rewrite orb_false_r, Hc. by rewrite Hu. }
  split; [exact Hu'|]. by destruct ps.
Qed.

Lemma split_scan_pieces (s : string) :
  (forall b, pieces_ok b (fst (split_scan b false s) :: snd (split_scan b false s))) /\
  (forall b, no_leading_space (fst (split_scan b true s)) /\
             pieces_ok false (fst (split_scan b true s) :: snd (split_scan b true s))).
Proof.
  induction s as [|c s [IH1 IH2]].
  - split; intros b; simpl; unfold unbroken; simpl; tauto.
  - split; intros b.
    + simpl. rewrite orb_false_r.
      destruct (is_space c && b) eqn:Hc.
      * destruct (IH2 false) as [Hn Hp].
        destruct (split_scan false true s) as [p ps]. simpl in *.
        apply andb_true_iff in Hc as [_ ->].
        split; [reflexivity|]. by split.
      * specialize (IH1 (is_terminator c)).
        destruct (split_scan (is_terminator c) false s) as [p ps]. simpl in *.
        by apply pieces_ok_cons.
    + simpl. rewrite orb_true_r, andb_true_r.
      destruct (is_space c) eqn:Hc.
      * apply IH2.
      * specialize (IH1 (is_terminator c)).
        destruct (split_scan (is_terminator c) false s) as [p ps]. simpl in *.
        split; [exact Hc|]. apply pieces_ok_cons; [by rewrite Hc|exact IH1].
Qed.

Lemma pieces_ok_firstn (n : nat) (b : bool) (l : list string) :
  pieces_ok b l -> pieces_ok b (firstn (S n) l).
Proof.
  revert n b. induction l as [|p r IH]; intros n b; [done|].
  intros [Hu Hrest]. destruct r as [|q r].
  - destruct n; by split.
  - destruct n as [|n]; [by split|].
    destruct Hrest as (He & Hq & Hr).
    change (firstn (S (S n)) (p :: q :: r)) with (p :: firstn (S n) (q :: r)).
    specialize (IH n false Hr). simpl in *. tauto.
Qed.

Lemma split_scan_join (l : list string) (b : bool) (p : string) (r : list string) :
  l = p :: r -> pieces_ok b l -> split_scan b false (str_join " " l) = (p, r).
Proof.
  revert b p r. induction l as [|p' r' IH]; intros b p r Hl Hok; [discriminate|].
  injection Hl as -> ->. destruct r as [|q r].
  - simpl. apply Hok.
  - destruct Hok as (Hu & He & Hq & Hr).
    change (str_join " " (p :: q :: r))
      with (p +:+ String " " (str_join " " (q :: r))).
    rewrite (split_scan_boundary _ _ _ Hu He).
    assert (Hlead : no_leading_space (str_join " " (q :: r))).
    { destruct q as [|c q]; [|by destruct r].
      destruct r as [|q' r]; [done|]. simpl in Hr. destruct Hr as (_ & Hf & _).
      discriminate. }
    rewrite (split_scan_resume _ Hlead).
    by rewrite (IH false q r eq_refl Hr).
Qed.













(** ** Language of the encyclopedia edition *)

Lemma str_split_head (sep : ascii) (s : string) :
  exists p ps rest,
    str_split sep s = p :: ps /\ s = p +:+ rest /\
    (rest = EmptyString \/ exists r, rest = String sep r) /\
    (forall c, In c (list_ascii_of_string p) -> c <> sep).
Proof.
  induction s as [|c s (p & ps & rest & Hs & Hcat & Hrest & Hno)].
  - exists EmptyString, [], EmptyString. simpl. tauto.
  - simpl. destruct (Ascii.eqb c sep) eqn:E.
    + apply Ascii.eqb_eq in E as ->.
      exists EmptyString, (str_split sep s), (String sep s).
      simpl. split; [done|]. split; [done|]. split; [eauto|tauto].
    + apply Ascii.eqb_neq in E. rewrite Hs.
      exists (String c p), ps, rest. simpl.
      split; [done|]. split; [by rewrite Hcat|]. split; [done|].
      intros c' [<-|Hin]; [done|by apply Hno].
Qed.

(** C9 (amended): the edition is the first dot-separated component of
    the host, whatever that component is: the host is the edition
    followed either by nothing or by a dot and the rest, and the
    edition holds no dot.  "en" is the edition only of a URL whose host
    is empty. *)
Theorem wiki_lang_first_component (domain : string) :
  wiki_lang EmptyString = "en"%string /\
  (domain <> EmptyString ->
   exists rest,
     domain = wiki_lang domain +:+ rest /\
     (rest = EmptyString \/ exists r, rest = String "." r) /\
     (forall c, In c (list_ascii_of_string (wiki_lang domain)) -> c <> "."%char)).
Proof.
  split; [reflexivity|]. intros Hne. unfold wiki_lang.
  apply String.eqb_neq in Hne. rewrite Hne.
  destruct (str_split_head "." domain) as (p & ps & rest & -> & Hcat & Hrest & Hno).
  exists rest. by repeat split.
Qed.

Lemma wiki_lang_first_component_witness :
  exists rest, "fr.wikipedia.org"%string = wiki_lang "fr.wikipedia.org" +:+ rest.
Proof.
  destruct (wiki_lang_first_component "fr.wikipedia.org") as [_ H].
  destruct H as (rest & Hcat & _); [discriminate|].
  exists rest. exact Hcat.
Defined.

(** C9 as stated fails: the host "wikipedia.org" has no language
    subdomain, and the edition used is "wikipedia", not "en". *)
Lemma host_without_language_is_not_en :
  wiki_lang "wikipedia.org" = "wikipedia"%string /\
  wiki_lang "wikipedia.org" <> "en"%string.
Proof. split; [reflexivity|discriminate]. Qed.

(** ** Result composer *)

(** A 4xx or 5xx answer to the upstream request makes [google_search]
    raise [HTTPError] with that response. *)
Lemma google_search_http_error
    (cfg : config) (w : world) (q : string) (s n : Z) (k : option string)
    (st : state) (r : Response) :
  unset (API_KEY cfg) = false -> unset (CX cfg) = false ->
  truthy (fst (_cache_get (clock_read w) (cache_key q s n k) (_cache st))) = false ->
  search_api w (search_request cfg q s n k) = Replied r ->
  raises_for_status r = true ->
  exists st', google_search cfg w q s n k st = (Raise (HTTPError r), st').
Proof.
  intros Hk Hcx Hmiss Hnet Hst. unfold google_search.
  rewrite Hk, Hcx. simpl.
  destruct (_cache_get _ _ _) as [cached c1]. simpl in Hmiss.
  rewrite Hmiss, Hnet, Hst. eauto.
Qed.

Lemma http_error_text_raises (r : Response) : http_error_text r = Raise TypeError.
Proof. reflexivity. Qed.

(** C1 does not hold of the code.  When the search provider answers
    with a 4xx or 5xx status, [google_search] raises [HTTPError]; the
    handler then adds the integer status code to the string "HTTP ",
    which raises [TypeError] inside the handler.  Both [home] and
    [images] end with that exception: no page is composed and no error
    message is produced. *)
Theorem http_error_escapes_handler
    (L : pylib) (cfg : config) (w : world) (arg_q arg_start : string)
    (st st' : state) (r : Response) :
  strip L arg_q <> EmptyString ->
  (google_search cfg w (strip L arg_q) (parse_start L arg_start) 10 None st
   = (Raise (HTTPError r), st') ->
   home L cfg w arg_q arg_start st = (Raise TypeError, st')) /\
  (google_search cfg w (strip L arg_q) (parse_start L arg_start) 10
     (Some "image"%string) st
   = (Raise (HTTPError r), st') ->
   images L cfg w arg_q arg_start st = (Raise TypeError, st')).
Proof.
  intros Hq. apply String.eqb_neq in Hq.
  split; intros Hgs.
  - unfold home. rewrite Hq, Hgs. unfold handle.
    by rewrite http_error_text_raises.
  - unfold images. rewrite Hq, Hgs. unfold handle.
    by rewrite http_error_text_raises.
Qed.

Lemma http_error_escapes_handler_witness :
  fst (home demo_lib demo_cfg forbidden_world "onyx" "1" (initial_state "2026-01-02"))
  = Raise TypeError /\
  fst (images demo_lib demo_cfg forbidden_world "onyx" "1" (initial_state "2026-01-02"))
  = Raise TypeError.
Proof.
  destruct (http_error_escapes_handler demo_lib demo_cfg forbidden_world
              "onyx" "1" (initial_state "2026-01-02")
              (mkState ∅ "2026-01-02" 0
                 [search_request demo_cfg "onyx" 1 10 None])
              (mkResponse 403 "Forbidden" None)) as [Hweb _]; [discriminate|].
  destruct (http_error_escapes_handler demo_lib demo_cfg forbidden_world
              "onyx" "1" (initial_state "2026-01-02")
              (mkState ∅ "2026-01-02" 0
                 [search_request demo_cfg "onyx" 1 10 (Some "image"%string)])
              (mkResponse 403 "Forbidden" None)) as [_ Himg]; [discriminate|].
  split.
  - rewrite Hweb; reflexivity.
  - rewrite Himg; reflexivity.
Defined.

(** Whenever the summary fetch raises, [encyclopedia_box] raises the
    same exception with the locals untouched, and the statements that
    follow it in the [try] body are not run. *)
Lemma encyclopedia_box_fetch_failure
    (L : pylib) (w : world) (l : locals) (top : SearchResultItem)
    (more : list SearchResultItem) (e : exn) (after : body unit) :
  results l = top :: more ->
  contains "wikipedia.org" (it_link top) = true ->
  fetch_json (wiki_api w (summary_url L (it_link top))) = Raise e ->
  (encyclopedia_box L w ;;; after) l = (Raise e, l).
Proof.
  intros Hres Hwiki Hfetch.
  unfold encyclopedia_box, bbind, read, lift.
  rewrite Hres, Hwiki. cbn beta iota. by rewrite Hfetch.
Qed.

(** C2 does not hold of the code.  The search succeeds with a top
    result on fr.wikipedia.org, the geocoder has an acceptable place
    and the provider announces a next page; the encyclopedia is
    unreachable.  The page keeps the search result and has no
    encyclopedia box, but it carries an error message, and neither the
    place box nor the cursor is produced.  With the encyclopedia
    answering, the same request gets both. *)
Theorem encyclopedia_failure_reaches_user :
  (exists pg,
     fst (home demo_lib demo_cfg demo_world "Paris" "1" (initial_state "2026-01-02")) = Ok pg /\
     length (pg_results pg) = 1%nat /\
     pg_wiki_box pg = None /\
     pg_error pg = Some "failure"%string /\
     pg_osm_box pg = None /\
     pg_next_start pg = VNone) /\
  (exists pg,
     fst (home demo_lib demo_cfg answering_world "Paris" "1" (initial_state "2026-01-02")) = Ok pg /\
     length (pg_results pg) = 1%nat /\
     pg_wiki_box pg <> None /\
     pg_error pg = None /\
     pg_osm_box pg <> None /\
     pg_next_start pg = VInt 11).
Proof.
  split; eexists; (split; [vm_compute; reflexivity|]); simpl;
    repeat split; discriminate.
Qed.

(** * Further properties *)

(** ** Response cache, continued *)

(** X1: whatever [_cache_get] returns other than [None] is the payload
    of an entry stored under that key and no older than the TTL, and
    then the store is left as it was.  In every case the entries of
    the other keys are untouched: the only change [_cache_get] ever
    makes is to delete the entry of the key it was asked for. *)
Theorem cache_get_sound
    (now : Q) (key : CacheKey) (c c' : Cache) (v : value) :
  _cache_get now key c = (v, c') ->
  (v <> VNone ->
   exists ts, c !! key = Some (ts, v) /\ (now - ts <= 60)%Q /\ c' = c) /\
  (c' = c \/ c' = delete key c) /\
  (forall key', key' <> key -> c' !! key' = c !! key').
Proof.
  unfold _cache_get. destruct (c !! key) as [[ts payload]|] eqn:Hk.
  - destruct (Qle_bool (now - ts) CACHE_TTL_SEC) eqn:Hage; simpl;
      intros [= <- <-].
    + split; [|split; [by left|done]].
      intros _. exists ts. split; [done|]. split; [|done].
      by apply Qle_bool_iff.
    + split; [done|]. split; [by right|].
      intros key' Hne. by apply lookup_delete_ne.
  - intros [= <- <-]. split; [done|]. split; [by left|done].
Qed.

Lemma cache_get_sound_witness :
  exists ts,
    ({[ ("onyx|10", 1, "web") := (5%Q, VInt 3) ]} : Cache) !! ("onyx|10", 1, "web")
    = Some (ts, VInt 3) /\ (7 - ts <= 60)%Q.
Proof.
  destruct (cache_get_sound 7 ("onyx|10", 1, "web")
              {[ ("onyx|10", 1, "web") := (5%Q, VInt 3) ]}
              {[ ("onyx|10", 1, "web") := (5%Q, VInt 3) ]} (VInt 3))
    as [H _]; [reflexivity|].
  destruct H as (ts & Hin & Hage & _); [discriminate|].
  exists ts. by split.
Defined.

(** X2: the TTL test is strict.  An entry that is exactly 60 seconds
    old is still served, and it stays in the store. *)
Theorem cache_entry_at_ttl_is_fresh
    (ts : Q) (key : CacheKey) (v : value) (c : Cache) :
  c !! key = Some (ts, v) -> _cache_get (ts + 60) key c = (v, c).
Proof.
  intros Hk. apply (cache_get_fresh _ ts); [exact Hk|].
  unfold CACHE_TTL_SEC.
  assert (H : (ts + 60 - ts == 60)%Q) by ring.
  rewrite H. apply Qle_refl.
Qed.

Lemma cache_entry_at_ttl_is_fresh_witness :
  _cache_get (5 + 60) ("onyx|10", 1, "web") {[ ("onyx|10", 1, "web") := (5%Q, VInt 3) ]}
  = (VInt 3, {[ ("onyx|10", 1, "web") := (5%Q, VInt 3) ]}).
Proof.
  apply (cache_entry_at_ttl_is_fresh 5 ("onyx|10", 1, "web") (VInt 3)).
  apply lookup_singleton_eq.
Defined.

(** X3: [_cache_set] overwrites: after two stores under one key only
    the second counts.  A store under one key does not disturb a read
    of another key: the read returns what it would have returned
    without the store, and the two updates commute. *)
Theorem cache_set_overwrites_and_commutes
    (t1 t2 now : Q) (key key' : CacheKey) (v1 v2 : value) (c : Cache) :
  _cache_set t2 key v2 (_cache_set t1 key v1 c) = _cache_set t2 key v2 c /\
  (key' <> key ->
   _cache_get now key' (_cache_set t1 key v1 c)
   = (fst (_cache_get now key' c),
      _cache_set t1 key v1 (snd (_cache_get now key' c)))).
Proof.
  split.
  - unfold _cache_set. apply insert_insert_eq.
  - intros Hne. unfold _cache_get, _cache_set.
    rewrite lookup_insert_ne; [|done].
    destruct (c !! key') as [[ts payload]|]; [|done].
    destruct (negb (Qle_bool (now - ts) CACHE_TTL_SEC)); [|done].
    simpl. f_equal. by apply delete_insert_ne.
Qed.

Lemma cache_set_overwrites_and_commutes_witness :
  _cache_get 7 ("b|10", 1, "web") (_cache_set 5 ("a|10", 1, "web") (VInt 1) ∅)
  = (VNone, _cache_set 5 ("a|10", 1, "web") (VInt 1) ∅).
Proof.
  destruct (cache_set_overwrites_and_commutes 5 5 7 ("a|10", 1, "web")
              ("b|10", 1, "web") (VInt 1) (VInt 1) ∅) as [_ H].
  apply H. discriminate.
Defined.

(** ** Search client, continued *)

Lemma chars_append (a b : string) :
  list_ascii_of_string (a +:+ b)
  = list_ascii_of_string a ++ list_ascii_of_string b.
Proof. induction a as [|c a IH]; [done|]. simpl. by rewrite IH. Qed.

Lemma chars_inj (a b : string) :
  list_ascii_of_string a = list_ascii_of_string b -> a = b.
Proof.
  intros H. rewrite <- (string_of_list_ascii_of_string a).
  rewrite <- (string_of_list_ascii_of_string b). by rewrite H.
Qed.

Lemma clamp_num_cases (n : Z) :
  clamp_num n = 1 \/ clamp_num n = 2 \/ clamp_num n = 3 \/ clamp_num n = 4 \/
  clamp_num n = 5 \/ clamp_num n = 6 \/ clamp_num n = 7 \/ clamp_num n = 8 \/
  clamp_num n = 9 \/ clamp_num n = 10.
Proof. pose proof (clamp_num_range n). lia. Qed.

Lemma query_and_size_inj (q1 q2 : string) (n1 n2 : Z) :
  q1 +:+ "|" +:+ str_int (clamp_num n1) = q2 +:+ "|" +:+ str_int (clamp_num n2) ->
  q1 = q2 /\ clamp_num n1 = clamp_num n2.
Proof.
  intros H. apply (f_equal list_ascii_of_string) in H.
  rewrite !chars_append in H.
  apply (f_equal (@rev ascii)) in H. rewrite !rev_app_distr in H.
  assert (Hq : rev (list_ascii_of_string q1) = rev (list_ascii_of_string q2) ->
               q1 = q2).
  { intros Hr. apply chars_inj.
    rewrite <- (rev_involutive (list_ascii_of_string q1)).
    rewrite <- (rev_involutive (list_ascii_of_string q2)). by rewrite Hr. }
  destruct (clamp_num_cases n1) as [E1|[E1|[E1|[E1|[E1|[E1|[E1|[E1|[E1|E1]]]]]]]]];
  destruct (clamp_num_cases n2) as [E2|[E2|[E2|[E2|[E2|[E2|[E2|[E2|[E2|E2]]]]]]]]];
  rewrite E1, E2 in *; simpl in H; try discriminate H.
  all: split; [apply Hq; congruence|reflexivity].
Qed.

(** X4: the cache key determines the call.  Two calls with the same
    key have the same query, the same clamped start index, the same
    clamped page size and the same kind, so different queries never
    share an entry, not even queries that contain the separator of the
    key; and a web search never shares an entry with an image search. *)
Theorem cache_key_injective
    (q1 q2 : string) (s1 s2 n1 n2 : Z) (k1 k2 : option string) :
  (cache_key q1 s1 n1 k1 = cache_key q2 s2 n2 k2 ->
   q1 = q2 /\ clamp_start s1 = clamp_start s2 /\
   clamp_num n1 = clamp_num n2 /\ kind_or_web k1 = kind_or_web k2) /\
  cache_key q1 s1 n1 None <> cache_key q2 s2 n2 (Some "image"%string).
Proof.
  split.
  - unfold cache_key. intros [= Hq Hs Hk].
    destruct (query_and_size_inj _ _ _ _ Hq) as [-> Hn]. by repeat split.
  - unfold cache_key. simpl. congruence.
Qed.

Lemma cache_key_injective_witness :
  "a|1"%string = "a|1"%string /\ clamp_start 0 = clamp_start 1 /\
  clamp_num 50 = clamp_num 10 /\ kind_or_web None = kind_or_web (Some "web"%string).
Proof.
  apply (cache_key_injective "a|1" "a|1" 0 1 50 10 None (Some "web"%string)).
  reflexivity.
Defined.

(** X5: a call to [google_search] reads and writes the cache under its
    own key only: whatever the outcome, the entry of every other key
    is what it was before the call. *)
Theorem google_search_touches_one_key
    (cfg : config) (w : world) (q : string) (s n : Z) (k : option string)
    (st : state) (key' : CacheKey) :
  key' <> cache_key q s n k ->
  _cache (snd (google_search cfg w q s n k st)) !! key' = _cache st !! key'.
Proof.
  intros Hne. unfold google_search.
  destruct (unset (API_KEY cfg) || unset (CX cfg)); [done|].
  destruct (_cache_get _ _ _) as [cached c1] eqn:Hget.
  destruct (cache_get_sound _ _ _ _ _ Hget) as (_ & _ & Hframe).
  specialize (Hframe key' Hne).
  destruct (truthy cached); [done|].
  destruct (search_api w _) as [|r]; [done|].
  destruct (raises_for_status r); [done|].
  destruct (json_body r) as [data|]; [|done].
  destruct (record_call _ _ _). simpl. unfold _cache_set.
  by rewrite lookup_insert_ne.
Qed.

Lemma google_search_touches_one_key_witness :
  _cache (snd (google_search demo_cfg later_world "other" 1 10 None
                 (after_first_search demo_world)))
    !! cache_key "onyx" 1 10 None
  = _cache (after_first_search demo_world) !! cache_key "onyx" 1 10 None.
Proof.
  apply (google_search_touches_one_key demo_cfg later_world "other" 1 10 None
           (after_first_search demo_world) (cache_key "onyx" 1 10 None)).
  discriminate.
Defined.

(** X6: a call that raises stores nothing: every entry found in the
    cache afterwards was there before.  And when the call found a
    stale entry under its key, the failed refresh leaves the key
    without any entry. *)
Theorem failed_search_is_not_cached
    (cfg : config) (w : world) (q : string) (s n : Z) (k : option string)
    (st st' : state) (e : exn) :
  google_search cfg w q s n k st = (Raise e, st') ->
  (forall key' entry,
     _cache st' !! key' = Some entry -> _cache st !! key' = Some entry) /\
  (forall ts v,
     unset (API_KEY cfg) || unset (CX cfg) = false ->
     _cache st !! cache_key q s n k = Some (ts, v) ->
     (60 < clock_read w - ts)%Q ->
     _cache st' !! cache_key q s n k = None).
Proof.
  unfold google_search.
  destruct (unset (API_KEY cfg) || unset (CX cfg)) eqn:Hcred.
  { intros [= _ <-]. split; [done|]. intros ts v Habs. discriminate. }
  destruct (_cache_get _ _ _) as [cached c1] eqn:Hget.
  destruct (cache_get_sound _ _ _ _ _ Hget) as (_ & Hc1 & _).
  assert (Hsub : forall key' entry,
            c1 !! key' = Some entry -> _cache st !! key' = Some entry).
  { intros key' entry. destruct Hc1 as [->| ->]; [done|].
    intros Hd. apply lookup_delete_Some in Hd. tauto. }
  assert (Hgone : forall ts v,
            _cache st !! cache_key q s n k = Some (ts, v) ->
            (60 < clock_read w - ts)%Q ->
            c1 !! cache_key q s n k = None).
  { intros ts v Hin Hold.
    rewrite (cache_get_stale _ _ _ _ _ Hin Hold) in Hget.
    injection Hget as _ <-. apply lookup_delete_eq. }
  destruct (truthy cached); [discriminate|].
  destruct (search_api w _) as [|r].
  { intros [= _ <-]. simpl. split; [exact Hsub|]. intros ts v _. apply Hgone. }
  destruct (raises_for_status r).
  { intros [= _ <-]. simpl. split; [exact Hsub|]. intros ts v _. apply Hgone. }
  destruct (json_body r) as [data|].
  { destruct (record_call _ _ _). discriminate. }
  intros [= _ <-]. simpl. split; [exact Hsub|]. intros ts v _. apply Hgone.
Qed.

Lemma failed_search_is_not_cached_witness :
  _cache (snd (google_search demo_cfg
                 (mkWorld 100 101 "2026-01-02" (search_api forbidden_world)
                    (wiki_api forbidden_world) (osm_api forbidden_world))
                 "onyx" 1 10 None (after_first_search demo_world)))
    !! cache_key "onyx" 1 10 None
  = None.
Proof.
  pose (w := mkWorld 100 101 "2026-01-02" (search_api forbidden_world)
               (wiki_api forbidden_world) (osm_api forbidden_world)).
  destruct (failed_search_is_not_cached demo_cfg w "onyx" 1 10 None
              (after_first_search demo_world)
              (snd (google_search demo_cfg w "onyx" 1 10 None
                      (after_first_search demo_world)))
              (HTTPError (mkResponse 403 "Forbidden" None)))
    as [_ H]; [vm_compute; reflexivity|].
  apply (H 11%Q demo_payload).
  - reflexivity.
  - vm_compute. reflexivity.
  - unfold Qlt. simpl. lia.
Defined.

(** X7: memoization.  After a call that went to the provider and got
    a truthy payload, the same call made again no later than the TTL
    after the payload was stored returns that payload from the cache:
    no second request, no change of state. *)
Theorem repeated_search_is_served_from_cache
    (cfg : config) (w1 w2 : world) (q : string) (s n : Z) (k : option string)
    (st st1 : state) (data : value) :
  google_search cfg w1 q s n k st = (Ok data, st1) ->
  net_log st1 <> net_log st ->
  truthy data = true ->
  (clock_read w2 - clock_store w1 <= 60)%Q ->
  google_search cfg w2 q s n k st1 = (Ok data, st1).
Proof.
  unfold google_search at 1.
  destruct (unset (API_KEY cfg) || unset (CX cfg)) eqn:Hcred; [discriminate|].
  destruct (_cache_get _ _ _) as [cached c1].
  destruct (truthy cached).
  { intros [= _ <-] Hlog. by exfalso. }
  destruct (search_api w1 _) as [|r]; [discriminate|].
  destruct (raises_for_status r); [discriminate|].
  destruct (json_body r) as [data'|]; [|discriminate].
  destruct (record_call _ _ _) as [date cnt].
  intros [= -> <-] _ Htrue Hage.
  unfold google_search. rewrite Hcred. simpl.
  rewrite (cache_get_fresh _ (clock_store w1) _ data); [by rewrite Htrue| |exact Hage].
  unfold _cache_set. apply lookup_insert_eq.
Qed.

Lemma repeated_search_is_served_from_cache_witness :
  google_search demo_cfg later_world "onyx" 1 10 None (after_first_search demo_world)
  = (Ok demo_payload, after_first_search demo_world).
Proof.
  apply (repeated_search_is_served_from_cache demo_cfg demo_world later_world
           "onyx" 1 10 None (initial_state "2026-01-02")).
  - reflexivity.
  - discriminate.
  - reflexivity.
  - unfold Qle. simpl. lia.
Defined.

(** X8: in every state the process can reach, the usage counter is
    between zero and the number of upstream requests issued so far. *)
Theorem counter_bounded_by_requests (cfg : config) (st : state) :
  reachable cfg st ->
  0 <= counter_count st <= Z.of_nat (length (net_log st)).
Proof.
  induction 1 as [date|w q s n k st Hst IH]; [simpl; lia|].
  unfold google_search.
  destruct (unset (API_KEY cfg) || unset (CX cfg)); [exact IH|].
  destruct (_cache_get _ _ _) as [cached c1].
  destruct (truthy cached); [exact IH|].
  destruct (search_api w _) as [|r]; [simpl; lia|].
  destruct (raises_for_status r); [simpl; lia|].
  destruct (json_body r) as [data|]; [|simpl; lia].
  unfold record_call.
  destruct (negb (String.eqb (counter_date st) (today w))); simpl; lia.
Qed.

Lemma counter_bounded_by_requests_witness :
  0 <= counter_count (after_first_search demo_world)
    <= Z.of_nat (length (net_log (after_first_search demo_world))).
Proof.
  apply (counter_bounded_by_requests demo_cfg). apply reach_search, reach_init.
Defined.

(** X9: in every state the process can reach, every key of the cache
    was built from clamped parameters: its start index lies in
    [1, 91], its first component ends with the separator and a page
    size in [1, 10], and its kind is not empty. *)
Theorem cached_keys_are_clamped
    (cfg : config) (st : state) (a kd : string) (s : Z) (entry : Q * value) :
  reachable cfg st ->
  _cache st !! (a, s, kd) = Some entry ->
  1 <= s <= 91 /\ kd <> EmptyString /\
  exists q n, a = q +:+ "|" +:+ str_int n /\ 1 <= n <= 10.
Proof.
  intros Hreach. revert entry.
  induction Hreach as [date|w q s0 n k st Hst IH]; intros entry Hin.
  { simpl in Hin. by rewrite lookup_empty in Hin. }
  destruct (decide ((a, s, kd) = cache_key q s0 n k)) as [Heq|Hne].
  - unfold cache_key in Heq. injection Heq as -> -> ->.
    split; [apply clamp_start_range|]. split.
    + unfold kind_or_web. destruct k as [x|]; [|discriminate].
      destruct (String.eqb x EmptyString) eqn:E; [discriminate|].
      by apply String.eqb_neq.
    + exists q, (clamp_num n). split; [reflexivity|apply clamp_num_range].
  - rewrite (google_search_touches_one_key _ _ _ _ _ _ _ _ Hne) in Hin.
    by apply (IH entry).
Qed.

Lemma cached_keys_are_clamped_witness :
  1 <= 1 <= 91 /\ "web"%string <> EmptyString /\
  exists q n, "onyx|10"%string = q +:+ "|" +:+ str_int n /\ 1 <= n <= 10.
Proof.
  apply (cached_keys_are_clamped demo_cfg (after_first_search demo_world)
           "onyx|10" "web" 1 (11%Q, demo_payload)).
  - apply reach_search, reach_init.
  - vm_compute. reflexivity.
Defined.

(** ** Handlers *)

(** X10: with a credential missing (unset or empty), a non-empty query
    to either handler gets a page that shows the configuration message
    and nothing else; no request is issued and the cache and the
    counter are untouched. *)
Theorem missing_credentials_are_reported
    (L : pylib) (cfg : config) (w : world) (arg_q arg_start : string) (st : state) :
  unset (API_KEY cfg) || unset (CX cfg) = true ->
  strip L arg_q <> EmptyString ->
  home L cfg w arg_q arg_start st
  = (Ok (blank_web_page (strip L arg_q) (Some missing_credentials) (counter_count st)),
     st) /\
  images L cfg w arg_q arg_start st
  = (Ok (blank_image_page (strip L arg_q) (Some missing_credentials) (counter_count st)),
     st).
Proof.
  intros Hcred Hq. apply String.eqb_neq in Hq.
  unfold home, images, google_search. by rewrite Hq, Hcred.
Qed.

Lemma missing_credentials_are_reported_witness :
  home demo_lib (mkConfig (Some "k3y") None None) demo_world "onyx" "1"
    (initial_state "2026-01-02")
  = (Ok (blank_web_page "onyx" (Some missing_credentials) 0),
     initial_state "2026-01-02").
Proof.
  apply (missing_credentials_are_reported demo_lib (mkConfig (Some "k3y") None None)
           demo_world "onyx" "1" (initial_state "2026-01-02")).
  - reflexivity.
  - discriminate.
Defined.

(** X11: a query that is empty once stripped is not searched: both
    handlers return a page without results, boxes, cursors or error,
    and leave the state alone, whatever the configuration and the
    providers. *)
Theorem empty_query_is_not_searched
    (L : pylib) (cfg : config) (w : world) (arg_q arg_start : string) (st : state) :
  strip L arg_q = EmptyString ->
  home L cfg w arg_q arg_start st
  = (Ok (blank_web_page EmptyString None (counter_count st)), st) /\
  images L cfg w arg_q arg_start st
  = (Ok (blank_image_page EmptyString None (counter_count st)), st).
Proof. intros Hq. unfold home, images. by rewrite Hq. Qed.

Lemma empty_query_is_not_searched_witness :
  home demo_lib demo_cfg demo_world EmptyString "1" (initial_state "2026-01-02")
  = (Ok (blank_web_page EmptyString None 0), initial_state "2026-01-02").
Proof.
  apply (empty_query_is_not_searched demo_lib demo_cfg demo_world EmptyString "1"
           (initial_state "2026-01-02")).
  reflexivity.
Defined.

Lemma meth_get_not_http (v : value) (k : string) (d : value) (e : exn) :
  meth_get v k d = Raise e -> is_http_error e = false.
Proof. destruct v; simpl; intros [= <-]; reflexivity. Qed.

Lemma item0_not_http (v : value) (e : exn) :
  item0 v = Raise e -> is_http_error e = false.
Proof. destruct v as [| | | |[|]|[|]|]; simpl; intros [= <-]; reflexivity. Qed.

Lemma py_iter_not_http (v : value) (e : exn) :
  py_iter v = Raise e -> is_http_error e = false.
Proof. destruct v; simpl; intros [= <-]; reflexivity. Qed.

Lemma link_netloc_not_http (L : pylib) (v : value) (e : exn) :
  link_netloc L v = Raise e -> is_http_error e = false.
Proof.
  destruct v; simpl; try discriminate;
    repeat match goal with |- context [if ?b then _ else _] => destruct b end;
    intros [= <-]; reflexivity.
Qed.

Lemma fetch_json_not_http (rp : reply) (e : exn) :
  fetch_json rp = Raise e -> is_http_error e = false.
Proof.
  destruct rp as [|r]; simpl; [by intros [= <-]|].
  destruct (json_body r); [discriminate|by intros [= <-]].
Qed.

Lemma shorten_value_not_http (v : value) (e : exn) :
  shorten_value v = Raise e -> is_http_error e = false.
Proof. destruct v; simpl; intros [= <-]; reflexivity. Qed.

Lemma cursor_not_http (lst old : value) (e : exn) :
  cursor lst old = Raise e -> is_http_error e = false.
Proof.
  unfold cursor, rbind. destruct (truthy lst); [|discriminate].
  destruct (item0 lst) eqn:E; [apply meth_get_not_http|].
  intros [= <-]. by apply (item0_not_http lst).
Qed.

Create HintDb not_http.
#[local] Hint Resolve meth_get_not_http item0_not_http py_iter_not_http
  link_netloc_not_http fetch_json_not_http shorten_value_not_http
  cursor_not_http : not_http.

(** Splits the hypothesis [H : ... = (Raise e, l)] along the matches
    of its left-hand side. *)
Ltac split_raise H :=
  repeat match type of H with
         | context [match ?x with _ => _ end] =>
             lazymatch x with
             | context [match _ with _ => _ end] => fail
             | _ => idtac
             end;
             let E := fresh "E" in
             destruct x eqn:E; simpl in H; try discriminate H
         end.

Lemma page_cursors_not_http (data : value) (pn pn' : value * value) (e : exn) :
  page_cursors data pn = (Raise e, pn') -> is_http_error e = false.
Proof.
  unfold page_cursors, rbind. intros H. split_raise H;
    injection H as <- _; eauto with not_http.
Qed.

Lemma append_results_not_http
    (L : pylib) (items : list value) (l l' : locals) (e : exn) :
  append_results L items l = (Raise e, l') -> is_http_error e = false.
Proof.
  revert l. induction items as [|it rest IH]; intros l; [discriminate|].
  simpl. unfold bbind, lift, modify. intros H.
  destruct (meth_get it "link" (VStr "#")) eqn:E1;
    [|injection H as <- _; eauto with not_http].
  destruct (link_netloc L a) eqn:E2;
    [|injection H as <- _; eauto with not_http].
  destruct (meth_get it "title" (VStr "(sans titre)")) eqn:E3;
    [|injection H as <- _; eauto with not_http].
  destruct (meth_get it "displayLink" (VStr EmptyString)) eqn:E4;
    [|injection H as <- _; eauto with not_http].
  destruct (meth_get it "snippet" (VStr EmptyString)) eqn:E5;
    [|injection H as <- _; eauto with not_http].
  by apply IH in H.
Qed.

Lemma encyclopedia_box_not_http (L : pylib) (w : world) (l l' : locals) (e : exn) :
  encyclopedia_box L w l = (Raise e, l') -> is_http_error e = false.
Proof.
  unfold encyclopedia_box, bbind, read, lift, modify, bret. intros H.
  split_raise H; injection H as <- _; eauto with not_http.
Qed.

Lemma place_box_not_http
    (L : pylib) (cfg : config) (w : world) (q : string) (l l' : locals) (e : exn) :
  place_box L cfg w q l = (Raise e, l') -> is_http_error e = false.
Proof.
  unfold place_box, bbind, lift, modify, bret, rbind, or_else. intros H.
  destruct (osm_search L cfg w q) as [place|e0];
    split_raise H; injection H as <- _; eauto with not_http.
Qed.

Lemma compose_web_not_http
    (L : pylib) (cfg : config) (w : world) (q : string) (data : value)
    (l l' : locals) (e : exn) :
  compose_web L cfg w q data l = (Raise e, l') -> is_http_error e = false.
Proof.
  unfold compose_web, bbind at 1 2 3 4, lift, modify. intros H.
  destruct (meth_get data "searchInformation" VNone) eqn:E1;
    [|injection H as <- _; eauto with not_http].
  destruct (meth_get data "items" VNone) eqn:E2;
    [|injection H as <- _; eauto with not_http].
  destruct (py_iter _) eqn:E3; [|injection H as <- _; eauto with not_http].
  unfold bbind in H.
  destruct (append_results L _ _) as [[[]|e1] l1] eqn:E4;
    [|injection H as <- _; eauto using append_results_not_http].
  destruct (encyclopedia_box L w l1) as [[[]|e2] l2] eqn:E5;
    [|injection H as <- _; eauto using encyclopedia_box_not_http].
  destruct (place_box L cfg w q l2) as [[[]|e3] l3] eqn:E6;
    [|injection H as <- _; eauto using place_box_not_http].
  unfold pagination in H.
  destruct (page_cursors data _) as [r pn] eqn:E7.
  injection H as -> _. eauto using page_cursors_not_http.
Qed.

Lemma append_images_not_http
    (items : list value) (acc acc' : list ImageItem) (e : exn) :
  append_images items acc = (Raise e, acc') -> is_http_error e = false.
Proof.
  revert acc. induction items as [|it rest IH]; intros acc; [discriminate|].
  simpl. unfold rbind. intros H.
  split_raise H; try (injection H as <- _; eauto with not_http).
  all: by apply IH in H.
Qed.

Lemma compose_images_not_http (data : value) (l : ilocals) (e : exn) :
  compose_images data = (Raise e, l) -> is_http_error e = false.
Proof.
  unfold compose_images, rbind. intros H.
  destruct (meth_get data "items" VNone) eqn:E1;
    [|injection H as <- _; eauto with not_http].
  destruct (py_iter _) eqn:E2; [|injection H as <- _; eauto with not_http].
  destruct (append_images _ _) as [[[]|e1] rs] eqn:E3;
    [|injection H as <- _; eauto using append_images_not_http].
  destruct (page_cursors data _) as [r pn] eqn:E4.
  injection H as -> _. eauto using page_cursors_not_http.
Qed.

Lemma google_search_http_error_origin
    (cfg : config) (w : world) (q : string) (s n : Z) (k : option string)
    (st st' : state) (r : Response) :
  google_search cfg w q s n k st = (Raise (HTTPError r), st') ->
  search_api w (search_request cfg q s n k) = Replied r /\
  raises_for_status r = true.
Proof.
  unfold google_search.
  destruct (unset (API_KEY cfg) || unset (CX cfg)); [discriminate|].
  destruct (_cache_get _ _ _) as [cached c1].
  destruct (truthy cached); [discriminate|].
  destruct (search_api w _) as [|r0]; [discriminate|].
  destruct (raises_for_status r0) eqn:Hst.
  - by intros [= <- _].
  - destruct (json_body r0); [|discriminate].
    by destruct (record_call _ _ _).
Qed.

(** X12: the handlers render every failure but one.  [home] and
    [images] end with an exception only when the search provider
    answered the request of this very call with a 4xx or 5xx status,
    and the exception is then the [TypeError] of the handler.  Any
    other failure (missing credentials, transport, undecodable or
    ill-shaped payloads, the encyclopedia, the place lookup) ends in a
    page. *)
Theorem handlers_raise_only_on_http_error
    (L : pylib) (cfg : config) (w : world) (arg_q arg_start : string)
    (st : state) (e : exn) :
  (fst (home L cfg w arg_q arg_start st) = Raise e ->
   e = TypeError /\
   exists r,
     search_api w (search_request cfg (strip L arg_q) (parse_start L arg_start) 10 None)
     = Replied r /\ raises_for_status r = true) /\
  (fst (images L cfg w arg_q arg_start st) = Raise e ->
   e = TypeError /\
   exists r,
     search_api w (search_request cfg (strip L arg_q) (parse_start L arg_start) 10
                     (Some "image"%string))
     = Replied r /\ raises_for_status r = true).
Proof.
  assert (Hhandle : forall raised e',
    handle L raised = Raise e' ->
    e' = TypeError /\ exists r, raised = Some (HTTPError r)).
  { intros [[]|] e'; simpl; try discriminate.
    intros [= <-]. eauto. }
  split.
  - unfold home. destruct (String.eqb (strip L arg_q) EmptyString); [discriminate|].
    destruct (google_search cfg w _ _ 10 None st) as [[data|e0] st'] eqn:Hgs.
    + destruct (compose_web L cfg w _ data locals0) as [[[]|e1] l] eqn:Hc;
        [discriminate|].
      destruct (handle L (Some e1)) as [err|e2] eqn:Hh; [discriminate|].
      destruct (Hhandle _ _ Hh) as (_ & r & [= ->]).
      apply compose_web_not_http in Hc. discriminate.
    + destruct (handle L (Some e0)) as [err|e2] eqn:Hh; [discriminate|].
      destruct (Hhandle _ _ Hh) as (-> & r & [= ->]).
      intros [= <-]. split; [done|]. exists r.
      by apply (google_search_http_error_origin _ _ _ _ _ _ _ _ _ Hgs).
  - unfold images. destruct (String.eqb (strip L arg_q) EmptyString); [discriminate|].
    destruct (google_search cfg w _ _ 10 (Some _) st) as [[data|e0] st'] eqn:Hgs.
    + destruct (compose_images data) as [[[]|e1] [[rs p] n]] eqn:Hc;
        [discriminate|].
      destruct (handle L (Some e1)) as [err|e2] eqn:Hh; [discriminate|].
      destruct (Hhandle _ _ Hh) as (_ & r & [= ->]).
      apply compose_images_not_http in Hc. discriminate.
    + destruct (handle L (Some e0)) as [err|e2] eqn:Hh.
      { simpl. discriminate. }
      destruct (Hhandle _ _ Hh) as (-> & r & [= ->]).
      intros [= <-]. split; [done|]. exists r.
      by apply (google_search_http_error_origin _ _ _ _ _ _ _ _ _ Hgs).
Qed.

Lemma handlers_raise_only_on_http_error_witness :
  exists r,
    search_api forbidden_world (search_request demo_cfg "onyx" 1 10 None)
    = Replied r /\ raises_for_status r = true.
Proof.
  destruct (handlers_raise_only_on_http_error demo_lib demo_cfg forbidden_world
              "onyx" "1" (initial_state "2026-01-02") TypeError) as [H _].
  destruct H as (_ & r & Hr); [reflexivity|].
  exists r. exact Hr.
Defined.

Lemma home_state
    (L : pylib) (cfg : config) (w : world) (arg_q arg_start : string) (st : state) :
  snd (home L cfg w arg_q arg_start st)
  = if String.eqb (strip L arg_q) EmptyString then st
    else snd (google_search cfg w (strip L arg_q) (parse_start L arg_start) 10 None st).
Proof.
  unfold home. destruct (String.eqb (strip L arg_q) EmptyString); [done|].
  destruct (google_search _ _ _ _ _ _ _) as [[data|e] st'].
  - destruct (compose_web _ _ _ _ _ _) as [[[]|e] l]; [done|].
    by destruct (handle L (Some e)).
  - by destruct (handle L (Some e)).
Qed.

Lemma images_state
    (L : pylib) (cfg : config) (w : world) (arg_q arg_start : string) (st : state) :
  snd (images L cfg w arg_q arg_start st)
  = if String.eqb (strip L arg_q) EmptyString then st
    else snd (google_search cfg w (strip L arg_q) (parse_start L arg_start) 10
                (Some "image"%string) st).
Proof.
  unfold images. destruct (String.eqb (strip L arg_q) EmptyString); [done|].
  destruct (google_search _ _ _ _ _ _ _) as [[data|e] st'].
  - destruct (compose_images data) as [[[]|e] [[rs p] n]]; [done|].
    by destruct (handle L (Some e)).
  - by destruct (handle L (Some e)).
Qed.

Lemma google_search_log
    (cfg : config) (w : world) (q : string) (s n : Z) (k : option string)
    (st : state) :
  net_log (snd (google_search cfg w q s n k st)) = net_log st \/
  (unset (API_KEY cfg) = false /\ unset (CX cfg) = false /\
   net_log (snd (google_search cfg w q s n k st))
   = search_request cfg q s n k :: net_log st).
Proof.
  unfold google_search.
  destruct (unset (API_KEY cfg)) eqn:Hk; [by left|].
  destruct (unset (CX cfg)) eqn:Hc; [by left|]. simpl.
  destruct (_cache_get _ _ _) as [cached c1].
  destruct (truthy cached); [by left|].
  destruct (search_api w _) as [|r]; [by right|].
  destruct (raises_for_status r); [by right|].
  destruct (json_body r) as [data|]; [|by right].
  destruct (record_call _ _ _). by right.
Qed.

(** X13: what the handlers send upstream.  A handler issues at most
    one request per call, and never one for an empty query or without
    both credentials.  The request asks for 10 results from a start
    index in [1, 91], which is 1 when the [start] argument is not a
    number; only [images] sets the search type, to "image". *)
Theorem handlers_issue_well_formed_requests
    (L : pylib) (cfg : config) (w : world) (arg_q arg_start : string) (st : state) :
  let ok (kind : option string) (log : list request) :=
    log = net_log st \/
    exists rq,
      log = rq :: net_log st /\
      rq_q rq = strip L arg_q /\ rq_q rq <> EmptyString /\
      unset (rq_key rq) = false /\ unset (rq_cx rq) = false /\
      rq_num rq = 10 /\ 1 <= rq_start rq <= 91 /\
      (int_of_string L arg_start = None -> rq_start rq = 1) /\
      rq_searchType rq = kind /\ rq_timeout rq = 15 in
  ok None (net_log (snd (home L cfg w arg_q arg_start st))) /\
  ok (Some "image"%string) (net_log (snd (images L cfg w arg_q arg_start st))).
Proof.
  assert (H : forall kind,
    kind = None \/ kind = Some "image"%string ->
    let st' := if String.eqb (strip L arg_q) EmptyString then st
               else snd (google_search cfg w (strip L arg_q)
                           (parse_start L arg_start) 10 kind st) in
    net_log st' = net_log st \/
    exists rq,
      net_log st' = rq :: net_log st /\
      rq_q rq = strip L arg_q /\ rq_q rq <> EmptyString /\
      unset (rq_key rq) = false /\ unset (rq_cx rq) = false /\
      rq_num rq = 10 /\ 1 <= rq_start rq <= 91 /\
      (int_of_string L arg_start = None -> rq_start rq = 1) /\
      rq_searchType rq = kind /\ rq_timeout rq = 15).
  { intros kind Hkind. simpl.
    destruct (String.eqb (strip L arg_q) EmptyString) eqn:Hq; [by left|].
    apply String.eqb_neq in Hq.
    destruct (google_search_log cfg w (strip L arg_q) (parse_start L arg_start)
                10 kind st) as [Hlog|(Hk & Hc & Hlog)]; [by left|].
    right. eexists. split; [exact Hlog|]. simpl.
    repeat split; try done; try apply clamp_start_range.
    - unfold parse_start. by intros ->.
    - by destruct Hkind as [-> | ->]. }
  split.
  - rewrite home_state. apply (H None). by left.
  - rewrite images_state. apply (H (Some "image"%string)). by right.
Qed.

Lemma handlers_issue_well_formed_requests_witness :
  exists rq,
    net_log (snd (home (mkPylib (fun s => s) (fun _ => None) (fun _ => None)
                          (fun _ => false)
                          (fun s => s) (fun s => s) (fun s => s) (fun _ => "failure"))
                    demo_cfg demo_world "onyx" "abc" (initial_state "2026-01-02")))
    = [rq] /\ rq_start rq = 1.
Proof.
  pose (L := mkPylib (fun s => s) (fun _ => None) (fun _ => None)
               (fun _ => false)
               (fun s => s) (fun s => s) (fun s => s) (fun _ => "failure"%string)).
  destruct (handlers_issue_well_formed_requests L demo_cfg demo_world "onyx" "abc"
              (initial_state "2026-01-02")) as [[Hlog|(rq & Hlog & H)] _].
  - vm_compute in Hlog. discriminate Hlog.
  - exists rq. split; [exact Hlog|].
    destruct H as (_ & _ & _ & _ & _ & _ & Hstart & _). apply Hstart. reflexivity.
Defined.

(** ** Summary shortener, continued *)

Lemma slice_to_firstn {A : Type} (n : Z) (l : list A) :
  exists k, slice_to n l = firstn k l /\ (1 <= n -> k = Z.to_nat n /\ (0 < k)%nat).
Proof.
  unfold slice_to. destruct (Z.leb_spec 0 n).
  - exists (Z.to_nat n). split; [done|]. lia.
  - eexists. split; [reflexivity|]. lia.
Qed.

(** X14: for any limit of at least one sentence, splitting the output
    of [shorten_extract] gives back the first sentences of the input
    up to the limit, and shortening twice is the same as shortening
    once. *)
Theorem shorten_extract_idempotent (text : string) (n : Z) :
  1 <= n ->
  split_sentences (shorten_extract text n)
  = firstn (Z.to_nat n) (split_sentences text) /\
  shorten_extract (shorten_extract text n) n = shorten_extract text n.
Proof.
  intros Hn.
  assert (Hsplit : split_sentences (shorten_extract text n)
                   = firstn (Z.to_nat n) (split_sentences text)).
  { unfold shorten_extract.
    destruct (slice_to_firstn n (split_sentences text)) as (k & -> & Hk).
    destruct (Hk Hn) as [-> Hpos].
    assert (Hok : pieces_ok false (split_sentences text)).
    { unfold split_sentences.
      pose proof (proj1 (split_scan_pieces text) false) as H.
      by destruct (split_scan false false text). }
    destruct (Z.to_nat n) as [|m]; [lia|].
    apply (pieces_ok_firstn m) in Hok.
    destruct (firstn (S m) (split_sentences text)) as [|p r] eqn:E.
    - unfold split_sentences in E.
      destruct (split_scan false false text). discriminate.
    - unfold split_sentences at 1.
      by rewrite (split_scan_join (p :: r) false p r eq_refl Hok). }
  split; [exact Hsplit|].
  unfold shorten_extract at 1. rewrite Hsplit.
  destruct (slice_to_firstn n (firstn (Z.to_nat n) (split_sentences text)))
    as (k & -> & Hk).
  destruct (Hk Hn) as [-> _].
  rewrite firstn_firstn, Nat.min_id.
  unfold shorten_extract.
  destruct (slice_to_firstn n (split_sentences text)) as (k & -> & Hk').
  by destruct (Hk' Hn) as [-> _].
Qed.

Lemma shorten_extract_idempotent_witness :
  shorten_extract (shorten_extract "One. Two! Three? Four. Five." 2) 2
  = shorten_extract "One. Two! Three? Four. Five." 2.
Proof.
  apply (shorten_extract_idempotent "One. Two! Three? Four. Five." 2). lia.
Defined.

Lemma str_join_cons (sep : string) (p : string) (q : string) (r : list string) :
  str_join sep (p :: q :: r) = p +:+ sep +:+ str_join sep (q :: r).
Proof. reflexivity. Qed.

Lemma string_length_append (a b : string) :
  String.length (a +:+ b) = (String.length a + String.length b)%nat.
Proof. induction a as [|c a IH]; [done|]. simpl. by rewrite IH. Qed.

Lemma string_length_cons (c : ascii) (s : string) :
  String.length (String c s) = S (String.length s).
Proof. reflexivity. Qed.

Lemma str_join_cons_char (sep : string) (c : ascii) (p : string) (ps : list string) :
  str_join sep (String c p :: ps) = String c (str_join sep (p :: ps)).
Proof. by destruct ps. Qed.

Lemma str_join_firstn_length (k : nat) (l : list string) :
  (String.length (str_join " " (firstn k l)) <= String.length (str_join " " l))%nat.
Proof.
  revert k. induction l as [|p r IH]; intros k.
  - by rewrite firstn_nil.
  - destruct k as [|k]; [simpl; lia|].
    destruct r as [|q r]; [destruct k; simpl; lia|].
    change (firstn (S k) (p :: q :: r)) with (p :: firstn k (q :: r)).
    specialize (IH k). rewrite str_join_cons.
    destruct (firstn k (q :: r)) as [|q' r'] eqn:E.
    + simpl. rewrite !string_length_append. lia.
    + rewrite str_join_cons. rewrite !string_length_append. lia.
Qed.

Lemma split_scan_length (s : string) (b sk : bool) :
  (String.length
     (str_join " " (fst (split_scan b sk s) :: snd (split_scan b sk s)))
   <= String.length s)%nat.
Proof.
  revert b sk. induction s as [|c s IH]; intros b sk; [simpl; lia|].
  simpl split_scan. destruct (is_space c && (b || sk)).
  - specialize (IH false true). destruct sk.
    + cbn iota. rewrite !string_length_cons. lia.
    + cbn iota. destruct (split_scan false true s) as [p ps].
      simpl fst in *. simpl snd in *.
      change (str_join " " (EmptyString :: p :: ps))
        with (String " " (str_join " " (p :: ps))).
      rewrite !string_length_cons. lia.
  - specialize (IH (is_terminator c) false).
    destruct (split_scan (is_terminator c) false s) as [p ps].
    simpl fst in *. simpl snd in *.
    rewrite str_join_cons_char. rewrite !string_length_cons. lia.
Qed.

(** X15: the summary is never longer than the extract, whatever the
    limit (a negative limit drops sentences from the end, as Python
    slices do); with the limit 0 it is empty. *)
Theorem shorten_extract_not_longer (text : string) (n : Z) :
  (String.length (shorten_extract text n) <= String.length text)%nat /\
  shorten_extract text 0 = EmptyString.
Proof.
  split; [|reflexivity].
  unfold shorten_extract.
  destruct (slice_to_firstn n (split_sentences text)) as (k & -> & _).
  etrans; [apply str_join_firstn_length|].
  unfold split_sentences.
  pose proof (split_scan_length text false false) as H.
  by destruct (split_scan false false text).
Qed.

(** ** Strings *)

Lemma str_split_nonempty (sep : ascii) (s : string) : str_split sep s <> [].
Proof.
  destruct s as [|c s]; [done|]. simpl.
  destruct (Ascii.eqb c sep); [done|]. by destruct (str_split sep s).
Qed.

(** X16: joining what [split] gave with the separator gives the
    string back. *)
Theorem split_then_join (sep : ascii) (s : string) :
  str_join (String sep EmptyString) (str_split sep s) = s.
Proof.
  induction s as [|c s IH]; [reflexivity|]. simpl str_split.
  destruct (Ascii.eqb c sep) eqn:E.
  - apply Ascii.eqb_eq in E as ->.
    pose proof (str_split_nonempty sep s) as Hne.
    destruct (str_split sep s) as [|q r]; [done|].
    rewrite str_join_cons, IH. reflexivity.
  - pose proof (str_split_nonempty sep s) as Hne.
    destruct (str_split sep s) as [|p [|q r]]; [done| |].
    + simpl in *. by rewrite IH.
    + rewrite str_join_cons. rewrite str_join_cons in IH.
      rewrite <- IH. reflexivity.
Qed.

Lemma str_split_app (sep : ascii) (a b : string) :
  str_split sep (a +:+ String sep b) = str_split sep a ++ str_split sep b.
Proof.
  induction a as [|c a IH]; [simpl; by rewrite Ascii.eqb_refl|].
  simpl. destruct (Ascii.eqb c sep); [by rewrite IH|].
  rewrite IH. pose proof (str_split_nonempty sep a) as Hne.
  by destruct (str_split sep a).
Qed.

Lemma str_split_no_sep (sep : ascii) (t : string) :
  (forall c, In c (list_ascii_of_string t) -> c <> sep) ->
  str_split sep t = [t].
Proof.
  induction t as [|c t IH]; [done|]. intros Hno. simpl.
  destruct (Ascii.eqb c sep) eqn:E.
  - apply Ascii.eqb_eq in E. exfalso. apply (Hno c); [by left|done].
  - rewrite IH; [done|]. intros c' Hin. apply Hno. by right.
Qed.

(** X17: the article title is what follows the last slash of the
    path: for a path that ends with a slash and a string without
    slash, [last_segment] is that string; for a path without any
    slash it is the whole path. *)
Theorem last_segment_after_last_slash (dir t : string) :
  (forall c, In c (list_ascii_of_string t) -> c <> "/"%char) ->
  last_segment (dir +:+ String "/" t) = t /\ last_segment t = t.
Proof.
  intros Hno. unfold last_segment.
  rewrite str_split_app, (str_split_no_sep _ _ Hno).
  split; [apply last_last|reflexivity].
Qed.

Lemma last_segment_after_last_slash_witness :
  last_segment "/wiki/Albert_Einstein" = "Albert_Einstein"%string.
Proof.
  apply (last_segment_after_last_slash "/wiki" "Albert_Einstein").
  intros c Hin. simpl in Hin.
  repeat (destruct Hin as [<-|Hin]; [discriminate|]). destruct Hin.
Defined.

(** X18: the address of the summary.  For a link whose host is a
    label without dot followed by a dot and the rest, and whose path
    ends with a slash and a title without slash, the summary is asked
    from the edition named by the label, for the unquoted title. *)
Theorem summary_url_of_article
    (L : pylib) (link lang rest dir t : string) :
  urlparse_netloc L link = lang +:+ String "." rest ->
  urlparse_path L link = dir +:+ String "/" t ->
  (forall c, In c (list_ascii_of_string lang) -> c <> "."%char) ->
  (forall c, In c (list_ascii_of_string t) -> c <> "/"%char) ->
  summary_url L link
  = "https://" +:+ lang +:+ ".wikipedia.org/api/rest_v1/page/summary/" +:+ unquote L t.
Proof.
  intros Hhost Hpath Hlang Ht. unfold summary_url.
  rewrite Hhost, Hpath.
  rewrite (proj1 (last_segment_after_last_slash dir t Ht)).
  unfold wiki_lang.
  assert (Hne : String.eqb (lang +:+ String "." rest) EmptyString = false).
  { apply String.eqb_neq. by destruct lang. }
  rewrite Hne, str_split_app, (str_split_no_sep _ _ Hlang). reflexivity.
Qed.

Lemma summary_url_of_article_witness :
  summary_url demo_lib "https://fr.wikipedia.org/wiki/Paris"
  = "https://fr.wikipedia.org/api/rest_v1/page/summary/Paris"%string.
Proof.
  apply (summary_url_of_article demo_lib "https://fr.wikipedia.org/wiki/Paris"
           "fr" "wikipedia.org" "/wiki" "Paris").
  - reflexivity.
  - reflexivity.
  - intros c Hin. simpl in Hin.
    repeat (destruct Hin as [<-|Hin]; [discriminate|]). destruct Hin.
  - intros c Hin. simpl in Hin.
    repeat (destruct Hin as [<-|Hin]; [discriminate|]). destruct Hin.
Defined.

(** ** Result composer, continued *)

Lemma link_netloc_ok (L : pylib) (link : value) (domain : string) :
  link_netloc L link = Ok domain ->
  domain = urlparse_netloc L (link_str link).
Proof.
  destruct link as [| | | |s| |]; simpl; try discriminate;
    try (repeat match goal with |- context [if ?b then _ else _] => destruct b end;
         discriminate).
  destruct (urlparse_raises L s); [discriminate|]. by intros [= <-].
Qed.

(** A link on which [urlparse] raises stops the loop with
    [ValueError]; the results gathered so far stay as they are. *)
Lemma append_results_stops_on_unparsable_link
    (L : pylib) (d : list (string * value)) (s : string) (rest : list value)
    (l : locals) :
  assoc "link" d = Some (VStr s) -> urlparse_raises L s = true ->
  append_results L (VDict d :: rest) l = (Raise ValueError, l).
Proof.
  intros Hlink Hraise. simpl. unfold bbind, lift, meth_get.
  rewrite Hlink. unfold link_netloc. by rewrite Hraise.
Qed.

(** X19: the loop that builds [results] only appends.  Whatever its
    outcome, the results that were there are kept in front, at most
    one entry per item is added (exactly one per item when the loop
    completes), every added entry carries the favicon address of the
    host of its own link, and no other local is touched. *)
Theorem append_results_extends
    (L : pylib) (items : list value) (l l' : locals) (r : result unit) :
  append_results L items l = (r, l') ->
  exists added,
    results l' = results l ++ added /\
    (length added <= length items)%nat /\
    (r = Ok tt -> length added = length items) /\
    Forall (fun it =>
              it_favicon it = favicon_prefix +:+ urlparse_netloc L (it_link it))
           added /\
    info l' = info l /\ wiki_box l' = wiki_box l /\ osm_box l' = osm_box l /\
    prev_start l' = prev_start l /\ next_start l' = next_start l.
Proof.
  revert l. induction items as [|it rest IH]; intros l.
  - intros [= <- <-]. exists []. rewrite app_nil_r. by repeat split.
  - simpl. unfold bbind, lift, modify. intros H.
    assert (Hstop : forall e, (Raise e, l) = (r, l') ->
      exists added,
        results l' = results l ++ added /\
        (length added <= length (it :: rest))%nat /\
        (r = Ok tt -> length added = length (it :: rest)) /\
        Forall (fun it =>
                  it_favicon it = favicon_prefix +:+ urlparse_netloc L (it_link it))
               added /\
        info l' = info l /\ wiki_box l' = wiki_box l /\ osm_box l' = osm_box l /\
        prev_start l' = prev_start l /\ next_start l' = next_start l).
    { intros e [= <- <-]. exists []. rewrite app_nil_r.
      repeat split; try done. simpl. lia. }
    destruct (meth_get it "link" (VStr "#")) as [link|e]; [|by apply (Hstop e)].
    destruct (link_netloc L link) as [domain|e] eqn:Hdom; [|by apply (Hstop e)].
    destruct (meth_get it "title" (VStr "(sans titre)")) as [title|e];
      [|by apply (Hstop e)].
    destruct (meth_get it "displayLink" (VStr EmptyString)) as [dl|e];
      [|by apply (Hstop e)].
    destruct (meth_get it "snippet" (VStr EmptyString)) as [sn|e];
      [|by apply (Hstop e)].
    apply IH in H as (added & Hres & Hlen & Hall & Hfav & Hrest).
    simpl in Hres, Hrest.
    exists (mkItem title (link_str link) dl sn (favicon_prefix +:+ domain) :: added).
    split; [by rewrite Hres, <- app_assoc|].
    split; [simpl; lia|]. split; [intros Hr; simpl; by rewrite (Hall Hr)|].
    split; [|exact Hrest].
    constructor; [|exact Hfav]. simpl. by rewrite (link_netloc_ok _ _ _ Hdom).
Qed.

Lemma append_results_extends_witness :
  exists added,
    results (snd (append_results demo_lib
                    [VDict [("link", VStr "https://fr.wikipedia.org/wiki/Paris")]]
                    locals0))
    = results locals0 ++ added /\ length added = 1%nat.
Proof.
  destruct (append_results_extends demo_lib
              [VDict [("link", VStr "https://fr.wikipedia.org/wiki/Paris")]]
              locals0
              (snd (append_results demo_lib
                      [VDict [("link", VStr "https://fr.wikipedia.org/wiki/Paris")]]
                      locals0))
              (Ok tt))
    as (added & Hres & _ & Hlen & _); [reflexivity|].
  exists added. split; [exact Hres|]. by apply Hlen.
Defined.

(** Splits the hypothesis [H : ... = (r, l)] along the matches of its
    left-hand side, keeping every case. *)
Ltac split_cases H :=
  repeat match type of H with
         | context [match ?x with _ => _ end] =>
             lazymatch x with
             | context [match _ with _ => _ end] => fail
             | _ => idtac
             end;
             let E := fresh "E" in
             destruct x eqn:E; simpl in H
         end.

(** X20: each box statement changes its own box only.  The
    encyclopedia step and the place step leave the results, the search
    information, the cursors and the other box as they were; when they
    raise, they leave every local as it was.  A place box appears
    only if [osm_search] returned a truthy place, so with the contact
    address unset the place step does nothing at all. *)
Theorem boxes_change_only_their_field
    (L : pylib) (cfg : config) (w : world) (q : string) (l l' : locals)
    (r : result unit) :
  (encyclopedia_box L w l = (r, l') ->
   results l' = results l /\ info l' = info l /\ osm_box l' = osm_box l /\
   prev_start l' = prev_start l /\ next_start l' = next_start l /\
   (r <> Ok tt -> l' = l)) /\
  (place_box L cfg w q l = (r, l') ->
   results l' = results l /\ info l' = info l /\ wiki_box l' = wiki_box l /\
   prev_start l' = prev_start l /\ next_start l' = next_start l /\
   (r <> Ok tt -> l' = l) /\
   (osm_box l' <> osm_box l ->
    exists place, osm_search L cfg w q = Ok place /\ truthy place = true) /\
   (MAIL cfg = None -> r = Ok tt /\ l' = l)).
Proof.
  split.
  - unfold encyclopedia_box, bbind, read, lift, modify, bret. intros H.
    split_cases H; injection H as <- <-; simpl; repeat split; done.
  - unfold place_box, bbind, lift, modify, bret, rbind, or_else. intros H.
    destruct (osm_search L cfg w q) as [place|e0] eqn:Hosm.
    + assert (Hmail : MAIL cfg <> None).
      { intros Hm. unfold osm_search in Hosm. by rewrite Hm in Hosm. }
      destruct (truthy place) eqn:Htruthy.
      * split_cases H; injection H as <- <-; simpl; repeat split; try done;
          intros _; by exists place.
      * injection H as <- <-. by repeat split.
    + simpl in H. injection H as <- <-. by repeat split.
Qed.

Lemma boxes_change_only_their_field_witness :
  place_box demo_lib (mkConfig (Some "k3y") (Some "cx01") None) demo_world "Paris"
    locals0
  = (Ok tt, locals0).
Proof.
  destruct (boxes_change_only_their_field demo_lib
              (mkConfig (Some "k3y") (Some "cx01") None) demo_world "Paris"
              locals0 locals0 (Ok tt)) as [_ H].
  destruct H as (_ & _ & _ & _ & _ & _ & _ & H); reflexivity.
Defined.

(** X21: the encyclopedia box falls back on the search result.  When
    the summary has neither extract nor title nor thumbnail, whatever
    the status of the response that carried it, the box shows the
    title of the top result, its snippet shortened to three sentences,
    no thumbnail, and the link of the result. *)
Theorem encyclopedia_box_falls_back_on_result
    (L : pylib) (w : world) (l : locals) (top : SearchResultItem)
    (more : list SearchResultItem) (r : Response) (wd : list (string * value))
    (sn : string) :
  results l = top :: more ->
  contains "wikipedia.org" (it_link top) = true ->
  wiki_api w (summary_url L (it_link top)) = Replied r ->
  json_body r = Some (VDict wd) ->
  assoc "extract" wd = None -> assoc "title" wd = None ->
  assoc "thumbnail" wd = None ->
  it_snippet top = VStr sn ->
  encyclopedia_box L w l
  = (Ok tt,
     mkLocals (results l) (info l)
       (Some (mkWikiBox (it_title top) (shorten_extract sn 3) VNone (it_link top)))
       (osm_box l) (prev_start l) (next_start l)).
Proof.
  intros Hres Hwiki Hapi Hjs Hex Hti Hth Hsn.
  unfold encyclopedia_box, bbind, read, lift, modify.
  rewrite Hres, Hwiki. cbn beta iota. rewrite Hapi. simpl. rewrite Hjs.
  simpl. rewrite Hex, Hti, Hth, Hsn. simpl. by rewrite Hres.
Qed.

Lemma encyclopedia_box_falls_back_on_result_witness :
  wiki_box
    (snd (encyclopedia_box demo_lib
            (mkWorld 0 0 EmptyString (fun _ => Unreachable)
               (fun _ => Replied (mkResponse 404 "{}" (Some (VDict []))))
               (fun _ _ => Unreachable))
            (mkLocals [mkItem (VStr "Paris") "https://fr.wikipedia.org/wiki/Paris"
                         (VStr EmptyString) (VStr "A. B. C. D.") EmptyString]
               VNone None None VNone VNone)))
  = Some (mkWikiBox (VStr "Paris") "A. B. C."
            VNone "https://fr.wikipedia.org/wiki/Paris").
Proof.
  rewrite (encyclopedia_box_falls_back_on_result demo_lib _ _
             (mkItem (VStr "Paris") "https://fr.wikipedia.org/wiki/Paris"
                (VStr EmptyString) (VStr "A. B. C. D.") EmptyString)
             [] (mkResponse 404 "{}" (Some (VDict []))) [] "A. B. C. D.");
    reflexivity.
Defined.

(** X22: an image item without image data falls back on its link.
    For items that are objects with a link and no "image" member, the
    loop of [images] completes, appends one entry per item after the
    entries already there, and in each added entry the thumbnail and
    the context are the link itself. *)
Theorem append_images_falls_back_on_link
    (items : list value) (acc : list ImageItem) :
  Forall (fun it => exists d lk,
            it = VDict d /\ assoc "link" d = Some lk /\ assoc "image" d = None)
         items ->
  exists added,
    append_images items acc = (Ok tt, acc ++ added) /\
    length added = length items /\
    Forall (fun im => im_thumbnail im = im_link im /\ im_context im = im_link im)
           added.
Proof.
  intros Hitems. revert acc.
  induction Hitems as [|it rest (d & lk & -> & Hlk & Himg) _ IH]; intros acc.
  - exists []. by rewrite app_nil_r.
  - simpl. rewrite Hlk, Himg. simpl.
    destruct (IH (acc ++ [mkImageItem lk lk lk])) as (added & Hrun & Hlen & Hall).
    exists (mkImageItem lk lk lk :: added).
    split; [by rewrite Hrun, <- app_assoc|].
    split; [simpl; by rewrite Hlen|]. by constructor.
Qed.

Lemma append_images_falls_back_on_link_witness :
  exists added,
    append_images [VDict [("link", VStr "https://example.org/a.png")]] []
    = (Ok tt, [] ++ added) /\ length added = 1%nat.
Proof.
  destruct (append_images_falls_back_on_link
              [VDict [("link", VStr "https://example.org/a.png")]] [])
    as (added & Hrun & Hlen & _).
  - constructor; [|constructor].
    exists [("link", VStr "https://example.org/a.png")], (VStr "https://example.org/a.png").
    by repeat split.
  - exists added. by split.
Defined.

Lemma cursor_origin (lst c : value) :
  cursor lst VNone = Ok c -> c <> VNone ->
  exists fd, item0 lst = Ok (VDict fd) /\ assoc "startIndex" fd = Some c.
Proof.
  unfold cursor, rbind. destruct (truthy lst); [|by intros [= <-]].
  destruct (item0 lst) as [first|e]; [|discriminate].
  destruct first as [| | | | | |fd]; try discriminate. simpl.
  destruct (assoc "startIndex" fd) as [x|] eqn:Hs; intros [= <-] Hc; [|done].
  by exists fd.
Qed.

Lemma member_origin (qd : list (string * value)) (member : string) (x : value) :
  item0 (py_or (match assoc member qd with Some v => v | None => VNone end)
           (VList []))
  = Ok x ->
  exists lst, assoc member qd = Some lst /\ item0 lst = Ok x.
Proof.
  unfold py_or. destruct (assoc member qd) as [v|]; [|discriminate].
  destruct (truthy v); [|discriminate]. intros H. by exists v.
Qed.

(** X23: the cursors come from the provider.  Whatever the outcome of
    the pagination step, started with no cursor, a next cursor other
    than [None] is the [startIndex] of the first element of
    [queries.nextPage] in the payload, and likewise for the previous
    cursor and [queries.previousPage]. *)
Theorem page_cursors_come_from_payload
    (data : value) (r : result unit) (p n : value) :
  page_cursors data (VNone, VNone) = (r, (p, n)) ->
  let from (member : string) (c : value) :=
    exists d qd lst fd,
      data = VDict d /\ assoc "queries" d = Some (VDict qd) /\
      assoc member qd = Some lst /\ item0 lst = Ok (VDict fd) /\
      assoc "startIndex" fd = Some c in
  (n <> VNone -> from "nextPage"%string n) /\
  (p <> VNone -> from "previousPage"%string p).
Proof.
  unfold page_cursors. intros H. cbv zeta.
  destruct data as [| | | | | |d]; try (injection H as _ <- <-; by split).
  unfold meth_get at 1 in H. unfold rbind at 1 in H.
  destruct (assoc "queries" d) as [[| | | | | |qd]|] eqn:Hq;
    simpl in H; try (injection H as _ <- <-; by split).
  destruct (cursor _ VNone) as [next'|e] eqn:Hnext in H;
    [|injection H as _ <- <-; by split].
  assert (Hn : next' <> VNone ->
    exists lst fd, assoc "nextPage" qd = Some lst /\
      item0 lst = Ok (VDict fd) /\ assoc "startIndex" fd = Some next').
  { intros Hc. destruct (cursor_origin _ _ Hnext Hc) as (fd & Hi & Hs).
    destruct (member_origin qd "nextPage" _ Hi) as (lst & Hl & Hi').
    by exists lst, fd. }
  destruct (cursor _ VNone) as [prev'|e] eqn:Hprev in H.
  - injection H as _ <- <-. split; intros Hc.
    + destruct (Hn Hc) as (lst & fd & ?). by exists d, qd, lst, fd.
    + destruct (cursor_origin _ _ Hprev Hc) as (fd & Hi & Hs).
      destruct (member_origin qd "previousPage" _ Hi) as (lst & Hl & Hi').
      by exists d, qd, lst, fd.
  - injection H as _ <- <-. split; intros Hc; [|done].
    destruct (Hn Hc) as (lst & fd & ?). by exists d, qd, lst, fd.
Qed.

Lemma page_cursors_come_from_payload_witness :
  exists d qd lst fd,
    demo_payload = VDict d /\ assoc "queries" d = Some (VDict qd) /\
    assoc "nextPage" qd = Some lst /\ item0 lst = Ok (VDict fd) /\
    assoc "startIndex" fd = Some (VInt 11).
Proof.
  destruct (page_cursors_come_from_payload demo_payload (Ok tt) VNone (VInt 11))
    as [H _]; [reflexivity|].
  apply H. discriminate.
Defined.

(** X24: what the place box shows.  For a place whose address and
    extra tags are objects or absent, the place step succeeds and
    fills the box with the members of the place as the provider gave
    them (the coordinates are not converted), the road, postcode and
    country of the address, the opening hours of the extra tags, and
    as city the first truthy one of the city, the town and the village
    of the address. *)
Theorem place_box_fields
    (L : pylib) (cfg : config) (w : world) (q : string) (l : locals)
    (d ad xd : list (string * value)) :
  osm_search L cfg w q = Ok (VDict d) -> d <> [] ->
  assoc "address" d = Some (VDict ad) \/ (assoc "address" d = None /\ ad = []) ->
  assoc "extratags" d = Some (VDict xd) \/ (assoc "extratags" d = None /\ xd = []) ->
  place_box L cfg w q l
  = (Ok tt,
     mkLocals (results l) (info l) (wiki_box l)
       (Some (mkOsmBox (dict_field "display_name" d) (dict_field "lat" d)
                (dict_field "lon" d) (dict_field "type" d)
                (dict_field "road" ad) (dict_field "postcode" ad)
                (py_or (dict_field "city" ad)
                   (py_or (dict_field "town" ad) (dict_field "village" ad)))
                (dict_field "country" ad) (dict_field "opening_hours" xd)))
       (prev_start l) (next_start l)).
Proof.
  intros Hosm Hd Haddr Hextra. unfold place_box. rewrite Hosm.
  destruct d as [|kv d]; [done|]. cbn [truthy].
  assert (Haddr' : py_or (match assoc "address" (kv :: d) with
                          | Some x => x | None => VDict [] end) (VDict [])
                   = VDict ad).
  { destruct Haddr as [->|[-> ->]]; [|reflexivity]. by destruct ad. }
  assert (Hextra' : py_or (match assoc "extratags" (kv :: d) with
                           | Some x => x | None => VDict [] end) (VDict [])
                    = VDict xd).
  { destruct Hextra as [->|[-> ->]]; [|reflexivity]. by destruct xd. }
  unfold bbind, lift, modify, meth_get at 1 2.
  rewrite Haddr', Hextra'. unfold meth_get, rbind, or_else, py_or, dict_field.
  destruct (truthy match assoc "city" ad with Some x => x | None => VNone end);
    [reflexivity|].
  destruct (truthy match assoc "town" ad with Some x => x | None => VNone end);
    reflexivity.
Qed.

Lemma place_box_fields_witness :
  osm_box (snd (place_box demo_lib demo_cfg demo_world "Paris" locals0))
  = Some (mkOsmBox (VStr "Paris, France") (VStr "48.85") (VStr "2.35") VNone
            VNone VNone VNone VNone VNone).
Proof.
  rewrite (place_box_fields demo_lib demo_cfg demo_world "Paris" locals0
             [("class", VStr "shop"); ("importance", VFloat (1 # 2));
              ("display_name", VStr "Paris, France"); ("lat", VStr "48.85");
              ("lon", VStr "2.35")] [] []).
  - reflexivity.
  - reflexivity.
  - discriminate.
  - by right.
  - by right.
Defined.
